(** * A shallow embedding of the Flickr client's signing and token exchange

  The development follows the Go sources of the client: the request
  context [FlickrClient] with its [url.Values] parameter set, the two
  signing procedures ([Sign], [ApiSign]), the parsers of the token
  responses, the three steps of the OAuth handshake and the helper
  [CanAddPhotos] of the groups package.

  Go strings are byte sequences; they are modelled by [string], whose
  characters are the 256 byte values.  The functions of Go's standard
  library that the client calls (net/url, strconv, strings, crypto/sha1,
  crypto/md5, crypto/hmac, encoding/base64) are modelled here as well, each
  in a module named after its package. *)

From Stdlib Require Import ZArith Ascii String List Lia DecimalString DecimalPos.
From stdpp Require Import gmap strings list sorting.

Local Open Scope Z_scope.

(** ** Bytes *)

Module Bytes.

Definition of_ascii (a : ascii) : Z := Z.of_N (N_of_ascii a).
Definition to_ascii (b : Z) : ascii := ascii_of_N (Z.to_N (b mod 256)).

Definition of_string (s : string) : list Z :=
  of_ascii <$> list_ascii_of_string s.
Definition to_string (bs : list Z) : string :=
  string_of_list_ascii (to_ascii <$> bs).

(** Big-endian and little-endian encodings of a word on [n] bytes. *)
Fixpoint be (n : nat) (x : Z) : list Z :=
  match n with
  | O => []
  | S n' => (Z.shiftr x (8 * Z.of_nat n')) mod 256 :: be n' x
  end.

Fixpoint le (n : nat) (x : Z) : list Z :=
  match n with
  | O => []
  | S n' => x mod 256 :: le n' (Z.shiftr x 8)
  end.

Definition from_be (bs : list Z) : Z :=
  fold_left (fun acc b => Z.lor (Z.shiftl acc 8) b) bs 0.

Definition from_le (bs : list Z) : Z := from_be (rev bs).

(** Cut a list in consecutive chunks of [n] elements; [k] bounds the
    number of chunks. *)
Fixpoint chunks {A} (k n : nat) (l : list A) : list (list A) :=
  match k with
  | O => []
  | S k' =>
      match l with
      | [] => []
      | _ => take n l :: chunks k' n (drop n l)
      end
  end.

End Bytes.

(** ** 32-bit words *)

Module Word32.

Definition modulus : Z := 2 ^ 32.
Definition wrap (x : Z) : Z := x mod modulus.
Definition add (x y : Z) : Z := wrap (x + y).
Definition neg (x : Z) : Z := Z.lxor x (modulus - 1).
Definition rotl (x n : Z) : Z :=
  wrap (Z.lor (Z.shiftl x n) (Z.shiftr x (32 - n))).

End Word32.

(** ** crypto/sha1 *)

Module SHA1.

Import Word32.

Definition init : list Z :=
  [0x67452301; 0xEFCDAB89; 0x98BADCFE; 0x10325476; 0xC3D2E1F0].

(** The message is followed by 0x80, by zero bytes up to 56 modulo 64, and
    by its length in bits on 8 big-endian bytes. *)
Definition pad (msg : list Z) : list Z :=
  let len := Z.of_nat (length msg) in
  let zeros := Z.to_nat ((55 - len) mod 64) in
  msg ++ [0x80] ++ replicate zeros 0 ++ Bytes.be 8 ((len * 8) mod 2 ^ 64).

(** The message schedule keeps the last sixteen words. *)
Definition next_word (win : list Z) : Z :=
  rotl (Z.lxor (Z.lxor (Z.lxor (nth 13 win 0) (nth 8 win 0))
                       (nth 2 win 0)) (nth 0 win 0)) 1.

Fixpoint schedule (n : nat) (win : list Z) : list Z :=
  match n with
  | O => []
  | S n' => let w := next_word win in w :: schedule n' (tl win ++ [w])
  end.

Definition round (i : nat) (st : list Z) (w : Z) : list Z :=
  match st with
  | [a; b; c; d; e] =>
      let '(f, k) :=
        if (i <? 20)%nat then
          (Z.lor (Z.land b c) (Z.land (neg b) d), 0x5A827999)
        else if (i <? 40)%nat then
          (Z.lxor (Z.lxor b c) d, 0x6ED9EBA1)
        else if (i <? 60)%nat then
          (Z.lor (Z.lor (Z.land b c) (Z.land b d)) (Z.land c d), 0x8F1BBCDC)
        else
          (Z.lxor (Z.lxor b c) d, 0xCA62C1D6) in
      let t := add (add (add (add (rotl a 5) f) e) w) k in
      [t; a; rotl b 30; c; d]
  | _ => st
  end.

Fixpoint rounds (i : nat) (st : list Z) (ws : list Z) : list Z :=
  match ws with
  | [] => st
  | w :: ws' => rounds (S i) (round i st w) ws'
  end.

Definition block (h : list Z) (blk : list Z) : list Z :=
  let w16 := Bytes.from_be <$> Bytes.chunks 16 4 blk in
  let ws := w16 ++ schedule 64 w16 in
  zip_with add h (rounds 0 h ws).

Definition sum (msg : list Z) : list Z :=
  let p := pad msg in
  let h := fold_left block (Bytes.chunks (length p) 64 p) init in
  h ≫= Bytes.be 4.

End SHA1.

(** ** crypto/md5 *)

Module MD5.

Import Word32.

Definition init : list Z :=
  [0x67452301; 0xEFCDAB89; 0x98BADCFE; 0x10325476].

Definition table : list Z :=
  [ 0xd76aa478; 0xe8c7b756; 0x242070db; 0xc1bdceee;
    0xf57c0faf; 0x4787c62a; 0xa8304613; 0xfd469501;
    0x698098d8; 0x8b44f7af; 0xffff5bb1; 0x895cd7be;
    0x6b901122; 0xfd987193; 0xa679438e; 0x49b40821;
    0xf61e2562; 0xc040b340; 0x265e5a51; 0xe9b6c7aa;
    0xd62f105d; 0x02441453; 0xd8a1e681; 0xe7d3fbc8;
    0x21e1cde6; 0xc33707d6; 0xf4d50d87; 0x455a14ed;
    0xa9e3e905; 0xfcefa3f8; 0x676f02d9; 0x8d2a4c8a;
    0xfffa3942; 0x8771f681; 0x6d9d6122; 0xfde5380c;
    0xa4beea44; 0x4bdecfa9; 0xf6bb4b60; 0xbebfbc70;
    0x289b7ec6; 0xeaa127fa; 0xd4ef3085; 0x04881d05;
    0xd9d4d039; 0xe6db99e5; 0x1fa27cf8; 0xc4ac5665;
    0xf4292244; 0x432aff97; 0xab9423a7; 0xfc93a039;
    0x655b59c3; 0x8f0ccc92; 0xffeff47d; 0x85845dd1;
    0x6fa87e4f; 0xfe2ce6e0; 0xa3014314; 0x4e0811a1;
    0xf7537e82; 0xbd3af235; 0x2ad7d2bb; 0xeb86d391 ].

Definition shifts : list Z :=
  [ 7; 12; 17; 22; 7; 12; 17; 22; 7; 12; 17; 22; 7; 12; 17; 22;
    5; 9; 14; 20; 5; 9; 14; 20; 5; 9; 14; 20; 5; 9; 14; 20;
    4; 11; 16; 23; 4; 11; 16; 23; 4; 11; 16; 23; 4; 11; 16; 23;
    6; 10; 15; 21; 6; 10; 15; 21; 6; 10; 15; 21; 6; 10; 15; 21 ].

(** Same padding as SHA-1, with the length in little-endian order. *)
Definition pad (msg : list Z) : list Z :=
  let len := Z.of_nat (length msg) in
  let zeros := Z.to_nat ((55 - len) mod 64) in
  msg ++ [0x80] ++ replicate zeros 0 ++ Bytes.le 8 ((len * 8) mod 2 ^ 64).

Definition step (x : list Z) (st : list Z) (i : nat) : list Z :=
  match st with
  | [a; b; c; d] =>
      let '(f, g) :=
        if (i <? 16)%nat then
          (Z.lor (Z.land b c) (Z.land (neg b) d), i)
        else if (i <? 32)%nat then
          (Z.lor (Z.land d b) (Z.land (neg d) c), ((5 * i + 1) mod 16)%nat)
        else if (i <? 48)%nat then
          (Z.lxor (Z.lxor b c) d, ((3 * i + 5) mod 16)%nat)
        else
          (Z.lxor c (Z.lor b (neg d)), ((7 * i) mod 16)%nat) in
      let t := add (add (add a f) (nth i table 0)) (nth g x 0) in
      [d; add b (rotl t (nth i shifts 0)); b; c]
  | _ => st
  end.

Definition block (h : list Z) (blk : list Z) : list Z :=
  let x := Bytes.from_le <$> Bytes.chunks 16 4 blk in
  zip_with add h (fold_left (step x) (seq 0 64) h).

Definition sum (msg : list Z) : list Z :=
  let p := pad msg in
  let h := fold_left block (Bytes.chunks (length p) 64 p) init in
  h ≫= Bytes.le 4.

End MD5.

(** ** crypto/hmac, instantiated with SHA-1 *)

Module HMAC.

Definition blocksize : nat := 64.

Definition prepare_key (key : list Z) : list Z :=
  let k := if (blocksize <? length key)%nat then SHA1.sum key else key in
  k ++ replicate (blocksize - length k) 0.

Definition sha1 (key msg : list Z) : list Z :=
  let k := prepare_key key in
  let ipad := (fun b => Z.lxor b 0x36) <$> k in
  let opad := (fun b => Z.lxor b 0x5c) <$> k in
  SHA1.sum (opad ++ SHA1.sum (ipad ++ msg)).

End HMAC.

(** ** Hexadecimal digits and encoding/base64 *)

Module Hex.

Definition lower : string := "0123456789abcdef".
Definition upper : string := "0123456789ABCDEF".

Definition digit (alphabet : string) (n : Z) : ascii :=
  match String.get (Z.to_nat n) alphabet with
  | Some c => c
  | None => "0"%char
  end.

(** Two digits per byte, as [fmt.Sprintf("%x", ...)] prints a byte
    array. *)
Fixpoint encode (bs : list Z) : string :=
  match bs with
  | [] => ""
  | b :: bs' =>
      String (digit lower (b / 16)) (String (digit lower (b mod 16)) (encode bs'))
  end.

End Hex.

Module Base64.

Definition alphabet : string :=
  "ABCDEFGHIJKLMNOPQRSTUVWXYZabcdefghijklmnopqrstuvwxyz0123456789+/".

Definition enc (n : Z) : ascii :=
  match String.get (Z.to_nat (n mod 64)) alphabet with
  | Some c => c
  | None => "="%char
  end.

(** [StdEncoding.EncodeToString]: three bytes give four characters, the
    last group is padded with [=]. *)
Fixpoint encode (bs : list Z) : string :=
  match bs with
  | [] => ""
  | [b0] =>
      String (enc (b0 / 4))
        (String (enc ((b0 mod 4) * 16)) "==")
  | [b0; b1] =>
      String (enc (b0 / 4))
        (String (enc ((b0 mod 4) * 16 + b1 / 16))
           (String (enc ((b1 mod 16) * 4)) "="))
  | b0 :: b1 :: b2 :: bs' =>
      String (enc (b0 / 4))
        (String (enc ((b0 mod 4) * 16 + b1 / 16))
           (String (enc ((b1 mod 16) * 4 + b2 / 64))
              (String (enc (b2 mod 64)) (encode bs'))))
  end.

End Base64.

(** ** Go errors

    An [error] value of Go is modelled by [option error]: [None] is [nil]. *)

Inductive NumErrorKind : Type := ErrSyntax | ErrRange.

Global Instance NumErrorKind_eq_dec : EqDecision NumErrorKind.
Proof. solve_decision. Defined.

Inductive error : Type :=
| EscapeError (s : string)
  (* net/url: invalid URL escape, with the offending text *)
| SemicolonError
  (* net/url: invalid semicolon separator in query *)
| NumError (fn num : string) (kind : NumErrorKind)
  (* strconv: the function, the input and the reason *)
| FlickrError (code : Z)
  (* the client's own error, built by [NewError] from its code *)
| TransportError (msg : string).
  (* whatever the HTTP client reports *)

Global Instance error_eq_dec : EqDecision error.
Proof. solve_decision. Defined.

(** Modelled from the spec: the package [flickr/error] is not part of the
    sources.  Its constructor [NewError] takes the numeric code of the
    failure; the error it builds is identified by that code (a distinct,
    step-specific error code per rejected step). *)
Definition NewError (code : Z) : error := FlickrError code.

(** ** Package strings *)

Module Strings.

(** [Cut(s, sep)] for a separator of one byte. *)
Fixpoint Cut (sep : ascii) (s : string) : string * string * bool :=
  match s with
  | EmptyString => (EmptyString, EmptyString, false)
  | String c s' =>
      if Ascii.eqb c sep then (EmptyString, s', true)
      else let '(before, after, found) := Cut sep s' in
           (String c before, after, found)
  end.

(** [Split(s, sep)] for a separator of one byte: the fields between the
    separators, in order. *)
Fixpoint Split (sep : ascii) (s : string) : list string :=
  match s with
  | EmptyString => [EmptyString]
  | String c s' =>
      if Ascii.eqb c sep then EmptyString :: Split sep s'
      else match Split sep s' with
           | f :: fs => String c f :: fs
           | [] => [String c EmptyString]
           end
  end.

Fixpoint ContainsByte (c : ascii) (s : string) : bool :=
  match s with
  | EmptyString => false
  | String d s' => Ascii.eqb c d || ContainsByte c s'
  end.

(** White space, as [unicode.IsSpace] decides it on the runes of a UTF-8
    string: the number of bytes of the white-space rune a list of bytes
    starts with, 0 when it starts with none.  The runes are U+0009 to
    U+000D, U+0020, U+0085, U+00A0, U+1680, U+2000 to U+200A, U+2028,
    U+2029, U+202F, U+205F and U+3000. *)
Definition space_width (bs : list Z) : nat :=
  match bs with
  | b0 :: rest =>
      if (9 <=? b0) && (b0 <=? 13) || (b0 =? 32) then 1%nat
      else match rest with
           | b1 :: rest' =>
               if (b0 =? 0xC2) && ((b1 =? 0x85) || (b1 =? 0xA0)) then 2%nat
               else match rest' with
                    | b2 :: _ =>
                        if (b0 =? 0xE1) && (b1 =? 0x9A) && (b2 =? 0x80)
                           || (b0 =? 0xE2) && (b1 =? 0x80)
                              && ((0x80 <=? b2) && (b2 <=? 0x8A)
                                  || (b2 =? 0xA8) || (b2 =? 0xA9) || (b2 =? 0xAF))
                           || (b0 =? 0xE2) && (b1 =? 0x81) && (b2 =? 0x9F)
                           || (b0 =? 0xE3) && (b1 =? 0x80) && (b2 =? 0x80)
                        then 3%nat else 0%nat
                    | [] => 0%nat
                    end
           | [] => 0%nat
           end
  | [] => 0%nat
  end.

(** The same runes read from the end: [bs] is the string reversed. *)
Definition space_width_back (bs : list Z) : nat :=
  match bs with
  | b0 :: rest =>
      if space_width [b0] =? 1 then 1%nat
      else match rest with
           | b1 :: rest' =>
               if space_width [b1; b0] =? 2 then 2%nat
               else match rest' with
                    | b2 :: _ => if space_width [b2; b1; b0] =? 3 then 3%nat else 0%nat
                    | [] => 0%nat
                    end
           | [] => 0%nat
           end
  | [] => 0%nat
  end%nat.

(** Drop white-space runes from the head of [bs]; [skip] counts the bytes
    of the current rune that remain to be dropped. *)
Fixpoint trim_go (width : list Z -> nat) (skip : nat) (bs : list Z) : list Z :=
  match bs with
  | [] => []
  | _ :: bs' =>
      match skip with
      | S k => trim_go width k bs'
      | O =>
          match width bs with
          | O => bs
          | S k => trim_go width k bs'
          end
      end
  end.

Definition TrimSpace (s : string) : string :=
  let left := trim_go space_width 0 (Bytes.of_string s) in
  Bytes.to_string (rev (trim_go space_width_back 0 (rev left))).

End Strings.

(** ** Package strconv *)

Module Strconv.

(** The size of [int] in bits, on the 64-bit targets. *)
Definition IntSize : Z := 64.

Definition ParseBool (str : string) : bool * option error :=
  if bool_decide (str ∈ ["1"; "t"; "T"; "TRUE"; "true"; "True"]) then (true, None)
  else if bool_decide (str ∈ ["0"; "f"; "F"; "FALSE"; "false"; "False"]) then (false, None)
  else (false, Some (NumError "ParseBool" str ErrSyntax)).

Definition is_digit (c : ascii) : bool :=
  let n := Bytes.of_ascii c in (48 <=? n) && (n <=? 57).

(** The value of a string of decimal digits, [None] when a byte is no
    digit. *)
Fixpoint digits_value (acc : Z) (s : string) : option Z :=
  match s with
  | EmptyString => Some acc
  | String c s' =>
      if is_digit c then digits_value (acc * 10 + (Bytes.of_ascii c - 48)) s'
      else None
  end.

(** [Atoi(s)], that is [ParseInt(s, 10, 0)]: an optional sign and at least
    one decimal digit.  A value out of the range of [int] is clamped and
    reported with [ErrRange]. *)
Definition Atoi (s : string) : Z * option error :=
  let '(neg, body) :=
    match s with
    | String "+" s' => (false, s')
    | String "-" s' => (true, s')
    | _ => (false, s)
    end in
  match body with
  | EmptyString => (0, Some (NumError "Atoi" s ErrSyntax))
  | _ =>
      match digits_value 0 body with
      | None => (0, Some (NumError "Atoi" s ErrSyntax))
      | Some un =>
          let cutoff := 2 ^ (IntSize - 1) in
          if negb neg && (cutoff <=? un) then
            (cutoff - 1, Some (NumError "Atoi" s ErrRange))
          else if neg && (cutoff <? un) then
            (- cutoff, Some (NumError "Atoi" s ErrRange))
          else (if neg then - un else un, None)
      end
  end.

(** [fmt.Sprintf("%d", n)]. *)
Definition FormatInt (n : Z) : string :=
  NilZero.string_of_int (Z.to_int n).

End Strconv.

(** ** Package net/url *)

Module Url.

(** [shouldEscape(c, encodeQueryComponent)]: only the unreserved
    characters of RFC 3986 stay as they are. *)
Definition shouldEscape (c : ascii) : bool :=
  let n := Bytes.of_ascii c in
  if (97 <=? n) && (n <=? 122) || (65 <=? n) && (n <=? 90)
     || (48 <=? n) && (n <=? 57) then false
  else if bool_decide (c ∈ ["-"; "_"; "."; "~"]%char) then false
  else true.

Definition escape_byte (c : ascii) : string :=
  if Ascii.eqb c " " then "+"
  else if shouldEscape c then
    let n := Bytes.of_ascii c in
    String "%" (String (Hex.digit Hex.upper (n / 16))
                  (String (Hex.digit Hex.upper (n mod 16)) EmptyString))
  else String c EmptyString.

Fixpoint QueryEscape (s : string) : string :=
  match s with
  | EmptyString => EmptyString
  | String c s' => escape_byte c +:+ QueryEscape s'
  end.

Definition unhex (c : ascii) : option Z :=
  let n := Bytes.of_ascii c in
  if (48 <=? n) && (n <=? 57) then Some (n - 48)
  else if (97 <=? n) && (n <=? 102) then Some (n - 97 + 10)
  else if (65 <=? n) && (n <=? 70) then Some (n - 65 + 10)
  else None.

(** The text an [EscapeError] carries: at most three bytes, from the
    percent sign on. *)
Definition escape_error (s : string) : error :=
  EscapeError (String.substring 0 3 s).

(** [QueryUnescape(s)]: [%XX] gives the byte XX, [+] a space.  The first
    percent sign that two hexadecimal digits do not follow is an error. *)
Fixpoint QueryUnescape (s : string) : error + string :=
  match s with
  | EmptyString => inr EmptyString
  | String c rest =>
      if Ascii.eqb c "%" then
        match rest with
        | String h1 (String h2 rest') =>
            match unhex h1, unhex h2 with
            | Some d1, Some d2 =>
                match QueryUnescape rest' with
                | inr t => inr (String (Bytes.to_ascii (d1 * 16 + d2)) t)
                | inl e => inl e
                end
            | _, _ => inl (escape_error s)
            end
        | _ => inl (escape_error s)
        end
      else
        match QueryUnescape rest with
        | inr t => inr (String (if Ascii.eqb c "+" then " "%char else c) t)
        | inl e => inl e
        end
  end.

(** [url.Values]: a map from a key to the list of its values. *)
Abbreviation Values := (gmap string (list string)).

(** [v[key]]: the nil slice when the key is absent. *)
Definition index (v : Values) (key : string) : list string :=
  default [] (v !! key).

Definition Get (v : Values) (key : string) : string :=
  match index v key with
  | [] => EmptyString
  | x :: _ => x
  end.

Definition Set_ (key value : string) (v : Values) : Values :=
  <[key := [value]]> v.

Definition Add (key value : string) (v : Values) : Values :=
  <[key := index v key ++ [value]]> v.

Definition Del (key : string) (v : Values) : Values := delete key v.

(** The keys of a map, as [for k := range v] collects them, then
    [sort.Strings]: ascending in the byte-wise order of strings. *)
Definition sorted_keys (v : Values) : list string :=
  merge_sort String.le (map_to_list v).*1.

(** One [key=value] pair written to the buffer, after a [&] when the buffer
    is not empty. *)
Definition write_pair (keyEscaped : string) (buf : string) (value : string) : string :=
  (if String.eqb buf EmptyString then buf else buf +:+ "&")
    +:+ keyEscaped +:+ "=" +:+ QueryEscape value.

(** [Values.Encode]: the keys in ascending order, the values of a key in
    the order they are stored. *)
Definition Encode (v : Values) : string :=
  fold_left (fun buf k => fold_left (write_pair (QueryEscape k)) (index v k) buf)
    (sorted_keys v) EmptyString.

(** One field of a query, between two [&]. *)
Definition parse_field (st : Values * option error) (field : string)
  : Values * option error :=
  let '(m, err) := st in
  if Strings.ContainsByte ";" field then (m, Some SemicolonError)
  else if String.eqb field EmptyString then (m, err)
  else
    let '(key, value, _) := Strings.Cut "=" field in
    match QueryUnescape key with
    | inl err1 => (m, if err is None then Some err1 else err)
    | inr key =>
        match QueryUnescape value with
        | inl err1 => (m, if err is None then Some err1 else err)
        | inr value => (Add key value m, err)
        end
    end.

(** [ParseQuery(query)]: the loop cuts the query at each [&] and handles
    the fields from left to right, which is a fold over the fields of
    [Split]; an empty field is skipped.  It returns the values it could
    read and the first error it met.  A field with a semicolon is an error
    of its own, which replaces the error kept so far (net/url since
    Go 1.17). *)
Definition ParseQuery (query : string) : Values * option error :=
  fold_left parse_field (Strings.Split "&" query) (∅, None).

End Url.

(** ** The environment: clock, random source and HTTP transport

    The client reads the wall clock, draws from the global source of
    math/rand and sends requests with its [http.Client].  These are the
    effects of the program; they are threaded through a state of type
    [World]. *)

Record HTTPRequest : Type := { req_method : string; req_url : string }.

(** What a GET gives to the caller: [HTTPClient.Get] fails, reading the
    body fails, or the body arrives. *)
Inductive HTTPReply : Type :=
| GetFails (e : error)
| ReadFails (e : error)
| Body (b : string).

Record World : Type := {
  (* the readings of the wall clock, in nanoseconds since the epoch, in the
     order they are taken, and how many were taken *)
  now : nat -> Z;
  reads : nat;
  (* math/rand: the non-negative numbers the source gives once seeded, the
     current seed and how many numbers were drawn since *)
  generator : Z -> nat -> Z;
  seed : Z;
  drawn : nat;
  (* the remote side: its reply to a request, given the earlier ones, and
     the requests sent so far *)
  server : list HTTPRequest -> HTTPRequest -> HTTPReply;
  requests : list HTTPRequest
}.

Definition M (A : Type) : Type := World -> A * World.

Global Instance M_ret : MRet M := fun A (a : A) (w : World) => (a, w).
Global Instance M_bind : MBind M :=
  fun A B (f : A -> M B) (m : M A) (w : World) => let '(a, w') := m w in f a w'.

(** [time.Now()]; the value is the instant in nanoseconds. *)
Definition time_Now : M Z := fun w =>
  (now w (reads w),
   {| now := now w; reads := S (reads w); generator := generator w;
      seed := seed w; drawn := drawn w; server := server w;
      requests := requests w |}).

Definition UnixNano (t : Z) : Z := t.
Definition Unix (t : Z) : Z := t / 10 ^ 9.

(** [rand.Seed(s)] *)
Definition rand_Seed (s : Z) : M unit := fun w =>
  (tt,
   {| now := now w; reads := reads w; generator := generator w;
      seed := s; drawn := 0%nat; server := server w;
      requests := requests w |}).

(** [rand.Intn(n)], for [0 < n]: a number of the half-open interval from 0
    to [n]. *)
Definition rand_Intn (n : Z) : M Z := fun w =>
  (generator w (seed w) (drawn w) mod n,
   {| now := now w; reads := reads w; generator := generator w;
      seed := seed w; drawn := S (drawn w); server := server w;
      requests := requests w |}).

(** [HTTPClient.Get(url)] followed by [ioutil.ReadAll(res.Body)]. *)
Definition http_Get (url : string) : M HTTPReply := fun w =>
  let rq := {| req_method := "GET"; req_url := url |} in
  (server w (requests w) rq,
   {| now := now w; reads := reads w; generator := generator w;
      seed := seed w; drawn := drawn w; server := server w;
      requests := requests w ++ [rq] |}).

(** ** The client (package flickr) *)

Definition API_ENDPOINT : string := "https://api.flickr.com/services/rest".
Definition AUTHORIZE_URL : string := "https://www.flickr.com/services/oauth/authorize".
Definition REQUEST_TOKEN_URL : string := "https://www.flickr.com/services/oauth/request_token".
Definition ACCESS_TOKEN_URL : string := "https://www.flickr.com/services/oauth/access_token".

Definition letters : string :=
  "123456789abcdefghijkmnopqrstuvwxyzABCDEFGHJKLMNPQRSTUVWXYZ".

(** [letters[i]]; the index is a result of [rand.Intn(len(letters))] and
    never out of range. *)
Definition letter (i : Z) : ascii :=
  default "1"%char (String.get (Z.to_nat i) letters).

(** The loop [for i := range b] over the [n] cells of [b]. *)
Fixpoint nonce_loop (n : nat) : M string :=
  match n with
  | O => mret EmptyString
  | S n' =>
      i ← rand_Intn (Z.of_nat (String.length letters));
      rest ← nonce_loop n';
      mret (String (letter i) rest)
  end.

Definition generateNonce : M string :=
  t ← time_Now;
  rand_Seed (UnixNano t);;
  nonce_loop 8.

(** The fields of the client.  Its [HTTPClient] is the transport of the
    world above. *)
Record FlickrClient : Type := {
  ApiKey : string;
  ApiSecret : string;
  EndpointUrl : string;
  HTTPVerb : string;
  Args : Url.Values;
  FlickrClient_OAuthToken : string;
  FlickrClient_OAuthTokenSecret : string
}.

Definition NewFlickrClient (apiKey apiSecret : string) : FlickrClient :=
  {| ApiKey := apiKey; ApiSecret := apiSecret; EndpointUrl := EmptyString;
     HTTPVerb := "GET"; Args := ∅;
     FlickrClient_OAuthToken := EmptyString;
     FlickrClient_OAuthTokenSecret := EmptyString |}.

(** Assignments to the fields [Args] and [EndpointUrl] of a client. *)
Definition with_Args (args : Url.Values) (c : FlickrClient) : FlickrClient :=
  {| ApiKey := ApiKey c; ApiSecret := ApiSecret c; EndpointUrl := EndpointUrl c;
     HTTPVerb := HTTPVerb c; Args := args;
     FlickrClient_OAuthToken := FlickrClient_OAuthToken c;
     FlickrClient_OAuthTokenSecret := FlickrClient_OAuthTokenSecret c |}.

Definition with_EndpointUrl (u : string) (c : FlickrClient) : FlickrClient :=
  {| ApiKey := ApiKey c; ApiSecret := ApiSecret c; EndpointUrl := u;
     HTTPVerb := HTTPVerb c; Args := Args c;
     FlickrClient_OAuthToken := FlickrClient_OAuthToken c;
     FlickrClient_OAuthTokenSecret := FlickrClient_OAuthTokenSecret c |}.

Definition getSigningBaseString (c : FlickrClient) : string :=
  let request_url := Url.QueryEscape (EndpointUrl c) in
  let query := Url.QueryEscape (Url.Encode (Args c)) in
  HTTPVerb c +:+ "&" +:+ request_url +:+ "&" +:+ query.

Definition getSignature (c : FlickrClient) (token_secret : string) : string :=
  let key := Url.QueryEscape (ApiSecret c) +:+ "&" +:+ Url.QueryEscape token_secret in
  let base_string := getSigningBaseString c in
  Base64.encode (HMAC.sha1 (Bytes.of_string key) (Bytes.of_string base_string)).

(** The loop of [getApiSignature] over the sorted keys.  [c.Args[k][0]]
    panics when the slice of [k] is empty: [None]. *)
Fixpoint api_base (args : Url.Values) (keys : list string) (buf : string)
  : option string :=
  match keys with
  | [] => Some buf
  | k :: keys' =>
      match Url.index args k with
      | arg :: _ => api_base args keys' (buf +:+ k +:+ arg)
      | [] => None
      end
  end.

Definition getApiSignature (c : FlickrClient) (token_secret : string)
  : option string :=
  base ← api_base (Args c) (Url.sorted_keys (Args c)) token_secret;
  Some (Hex.encode (MD5.sum (Bytes.of_string base))).

Definition Sign (tokenSecret : string) (c : FlickrClient) : FlickrClient :=
  let c := with_Args (Url.Del "oauth_signature" (Args c)) c in
  with_Args (Url.Set_ "oauth_signature" (getSignature c tokenSecret) (Args c)) c.

(** [None] when [getApiSignature] panics. *)
Definition ApiSign (tokenSecret : string) (c : FlickrClient) : option FlickrClient :=
  let c := with_Args (Url.Del "api_sig" (Args c)) c in
  sig ← getApiSignature c tokenSecret;
  Some (with_Args (Url.Set_ "api_sig" sig (Args c)) c).

Definition GetUrl (c : FlickrClient) : string :=
  EndpointUrl c +:+ "?" +:+ Url.Encode (Args c).

Definition ClearArgs (c : FlickrClient) : FlickrClient := with_Args ∅ c.

Definition SetDefaultArgs (c : FlickrClient) : M FlickrClient :=
  let c := with_Args ∅ c in
  let c := with_Args (Url.Add "oauth_version" "1.0" (Args c)) c in
  let c := with_Args (Url.Add "oauth_signature_method" "HMAC-SHA1" (Args c)) c in
  nonce ← generateNonce;
  let c := with_Args (Url.Add "oauth_nonce" nonce (Args c)) c in
  t ← time_Now;
  mret (with_Args (Url.Add "oauth_timestamp" (Strconv.FormatInt (Unix t)) (Args c)) c).

(** *** Responses of the API *)

(** The status attribute of the element [rsp] and the attributes of its
    element [err]; the fields decoded from a response that has no [err] are
    the zero values. *)
Record FlickrResponseError : Type := { Code : Z; Message : string }.

Record FlickrResponse : Type := {
  Status : string;
  Error : FlickrResponseError
}.

Definition HasErrors (r : FlickrResponse) : bool := String.eqb (Status r) "fail".
Definition ErrorCode (r : FlickrResponse) : Z := Code (Error r).
Definition ErrorMsg (r : FlickrResponse) : string := Message (Error r).

(** *** Tokens *)

Record RequestToken : Type := {
  OauthCallbackConfirmed : bool;
  OauthToken : string;
  OauthTokenSecret : string;
  OAuthProblem : string
}.

Record OAuthToken : Type := {
  OAuthToken_OAuthToken : string;
  OAuthToken_OAuthTokenSecret : string;
  OAuthToken_UserNsid : string;
  OAuthToken_Username : string;
  OAuthToken_Fullname : string;
  OAuthToken_OAuthProblem : string
}.

(** The results are Go's pairs: a pointer, [None] for [nil], and an
    error. *)
Definition ParseRequestToken (response : string)
  : option RequestToken * option error :=
  let '(val, err) := Url.ParseQuery (Strings.TrimSpace response) in
  match err with
  | Some e => (None, Some e)
  | None =>
      let oauth_problem := Url.Get val "oauth_problem" in
      if negb (String.eqb oauth_problem EmptyString) then
        (Some {| OauthCallbackConfirmed := false; OauthToken := EmptyString;
                 OauthTokenSecret := EmptyString; OAuthProblem := oauth_problem |},
         Some (NewError 20))
      else
        let '(confirmed, _) := Strconv.ParseBool (Url.Get val "oauth_callback_confirmed") in
        (Some {| OauthCallbackConfirmed := confirmed;
                 OauthToken := Url.Get val "oauth_token";
                 OauthTokenSecret := Url.Get val "oauth_token_secret";
                 OAuthProblem := EmptyString |},
         None)
  end.

Definition ParseOAuthToken (response : string)
  : option OAuthToken * option error :=
  let '(val, err) := Url.ParseQuery (Strings.TrimSpace response) in
  match err with
  | Some e => (None, Some e)
  | None =>
      let oauth_problem := Url.Get val "oauth_problem" in
      if negb (String.eqb oauth_problem EmptyString) then
        (Some {| OAuthToken_OAuthToken := EmptyString;
                 OAuthToken_OAuthTokenSecret := EmptyString;
                 OAuthToken_UserNsid := EmptyString;
                 OAuthToken_Username := EmptyString;
                 OAuthToken_Fullname := EmptyString;
                 OAuthToken_OAuthProblem := oauth_problem |},
         Some (NewError 30))
      else
        (Some {| OAuthToken_OAuthToken := Url.Get val "oauth_token";
                 OAuthToken_OAuthTokenSecret := Url.Get val "oauth_token_secret";
                 OAuthToken_UserNsid := Url.Get val "user_nsid";
                 OAuthToken_Username := Url.Get val "username";
                 OAuthToken_Fullname := Url.Get val "fullname";
                 OAuthToken_OAuthProblem := EmptyString |},
         None)
  end.

(** *** The three steps of the handshake

    Each step updates the client it is given; the model returns the client
    after the call beside the results. *)

Definition GetRequestToken (client : FlickrClient)
  : M (FlickrClient * (option RequestToken * option error)) :=
  let client := with_EndpointUrl REQUEST_TOKEN_URL client in
  client ← SetDefaultArgs client;
  let client := with_Args (Url.Set_ "oauth_consumer_key" (ApiKey client) (Args client)) client in
  let client := with_Args (Url.Set_ "oauth_callback" "oob" (Args client)) client in
  let client := Sign EmptyString client in
  reply ← http_Get (GetUrl client);
  mret (client,
        match reply with
        | GetFails e => (None, Some e)
        | ReadFails e => (None, Some e)
        | Body body => ParseRequestToken body
        end).

Definition GetAuthorizeUrl (client : FlickrClient) (reqToken : RequestToken)
  : M (FlickrClient * (string * option error)) :=
  let client := with_EndpointUrl AUTHORIZE_URL client in
  let client := with_Args ∅ client in
  let client := with_Args (Url.Set_ "oauth_token" (OauthToken reqToken) (Args client)) client in
  let client := with_Args (Url.Set_ "perms" "delete" (Args client)) client in
  mret (client, (GetUrl client, None)).

Definition GetAccessToken (client : FlickrClient) (reqToken : RequestToken)
    (oauthVerifier : string)
  : M (FlickrClient * (option OAuthToken * option error)) :=
  let client := with_EndpointUrl ACCESS_TOKEN_URL client in
  client ← SetDefaultArgs client;
  let client := with_Args (Url.Set_ "oauth_verifier" oauthVerifier (Args client)) client in
  let client := with_Args (Url.Set_ "oauth_consumer_key" (ApiKey client) (Args client)) client in
  let client := with_Args (Url.Set_ "oauth_token" (OauthToken reqToken) (Args client)) client in
  let client := Sign (OauthTokenSecret reqToken) client in
  reply ← http_Get (GetUrl client);
  mret (client,
        match reply with
        | GetFails e => (None, Some e)
        | ReadFails e => (None, Some e)
        | Body body => ParseOAuthToken body
        end).

(** ** Package groups *)

Module Groups.

Record ThrottleInfo : Type := {
  Text : string;
  Count : string;
  Mode : string;
  Remaining : string
}.

Record RestrictionsInfo : Type := {
  Restrictions_Text : string;
  PhotosOk : string;
  VideosOk : string;
  ImagesOk : string;
  ScreensOk : string;
  ArtOk : string;
  VirtualOk : string;
  SafeOk : string;
  ModerateOk : string;
  RestrictedOk : string;
  HasGeo : string
}.

Record GroupInfo : Type := {
  ID : string;
  Throttle : ThrottleInfo;
  Restriction : RestrictionsInfo
}.

(** The embedded [flickr.BasicResponse] is the envelope of every
    response. *)
Record GroupInfoResponse : Type := {
  BasicResponse : FlickrResponse;
  Group : GroupInfo
}.

Definition CanAddPhotos (group : GroupInfoResponse) : bool :=
  let '(val, err) := Strconv.Atoi (Remaining (Throttle (Group group))) in
  match err with
  | None => 0 <? val
  | Some _ => false
  end.

End Groups.

(** * Notions the statements below use *)

(** The bytes of a string, as a list. *)
Definition chars (s : string) : list ascii := list_ascii_of_string s.

(** An ASCII letter or digit. *)
Definition alphanumeric (c : ascii) : bool :=
  let n := Bytes.of_ascii c in
  (48 <=? n) && (n <=? 57) || (65 <=? n) && (n <=? 90) || (97 <=? n) && (n <=? 122).

(** A world whose random source gives the number [i] at every draw, whose
    clock stands still and whose server sends an empty body. *)
Definition constant_world (i : Z) : World :=
  {| now := fun _ => 0; reads := 0%nat; generator := fun _ _ => i;
     seed := 0; drawn := 0%nat;
     server := fun _ _ => Body EmptyString; requests := [] |}.

(** A response of [flickr.groups.getInfo] whose throttle has [s] as its
    attribute [remaining]. *)
Definition group_with_remaining (s : string) : Groups.GroupInfoResponse :=
  let none := EmptyString in
  {| Groups.BasicResponse :=
       {| Status := "ok"; Error := {| Code := 0; Message := none |} |};
     Groups.Group :=
       {| Groups.ID := "1";
          Groups.Throttle :=
            {| Groups.Text := none; Groups.Count := "5"; Groups.Mode := "day";
               Groups.Remaining := s |};
          Groups.Restriction :=
            {| Groups.Restrictions_Text := none; Groups.PhotosOk := "1";
               Groups.VideosOk := "1"; Groups.ImagesOk := "1";
               Groups.ScreensOk := "1"; Groups.ArtOk := "1";
               Groups.VirtualOk := "1"; Groups.SafeOk := "1";
               Groups.ModerateOk := "0"; Groups.RestrictedOk := "0";
               Groups.HasGeo := "0" |} |} |}.

(** What [Sign] and [ApiSign] read of the client: its state once the old
    signature is deleted. *)
Definition unsigned (key : string) (c : FlickrClient) : FlickrClient :=
  with_Args (Url.Del key (Args c)) c.

(** The parameters that can be read in a response body: what
    [url.ParseQuery] returns beside its error. *)
Definition body_values (body : string) : Url.Values :=
  (Url.ParseQuery (Strings.TrimSpace body)).1.

(** The statement that a body with a non-empty [oauth_problem] makes both
    parsers return a token carrying the problem, with an error, and that the
    two errors differ. *)
Definition problem_reported (body : string) : Prop :=
  let problem := Url.Get (body_values body) "oauth_problem" in
  problem <> EmptyString ->
  exists (rt : RequestToken) (e1 : error) (tok : OAuthToken) (e2 : error),
    ParseRequestToken body = (Some rt, Some e1)
    /\ OAuthProblem rt = problem
    /\ ParseOAuthToken body = (Some tok, Some e2)
    /\ OAuthToken_OAuthProblem tok = problem
    /\ e1 <> e2.

(** The statement that a body without [oauth_problem] makes
    [ParseRequestToken] return a token read from the body and no error. *)
Definition token_returned (body : string) : Prop :=
  let val := body_values body in
  Url.Get val "oauth_problem" = EmptyString ->
  exists rt : RequestToken,
    ParseRequestToken body = (Some rt, None)
    /\ OauthToken rt = Url.Get val "oauth_token"
    /\ OauthTokenSecret rt = Url.Get val "oauth_token_secret"
    /\ OauthCallbackConfirmed rt
       = (Strconv.ParseBool (Url.Get val "oauth_callback_confirmed")).1.

(** The parameters of a set as pairs of a key and a value: for each key
    of [keys] in turn, its values in the order they are stored. *)
Definition pairs_of (v : Url.Values) (keys : list string) : list (string * string) :=
  keys ≫= (fun k => (fun x => (k, x)) <$> Url.index v k).

(** The form encoding of one parameter. *)
Definition form_pair (p : string * string) : string :=
  Url.QueryEscape p.1 +:+ "=" +:+ Url.QueryEscape p.2.

(** ** The OAuth signature, by the words of the specification *)

(** All current parameters of a set, in the order the map gives its
    keys. *)
Definition parameters (v : Url.Values) : list (string * string) :=
  pairs_of v (map_to_list v).*1.

(** The order of the parameters: by key, ties broken by value. *)
Definition param_le (p q : string * string) : Prop :=
  if decide (p.1 = q.1) then String.le p.2 q.2 else String.le p.1 q.1.

Global Instance param_le_dec : RelDecision param_le.
Proof. intros p q. unfold param_le. destruct (decide (p.1 = q.1)); apply _. Defined.

(** The order by key alone. *)
Definition key_le (p q : string * string) : Prop := String.le p.1 q.1.

(** The form encoding of all parameters sorted by key, ties broken by
    value, joined with [&]. *)
Definition canonicalQueryString (v : Url.Values) : string :=
  String.concat "&" (form_pair <$> merge_sort param_le (parameters v)).

Definition base_string (verb endpoint query : string) : string :=
  verb +:+ "&" +:+ Url.QueryEscape endpoint +:+ "&" +:+ Url.QueryEscape query.

Definition signing_key (appSecret tokenSecret : string) : string :=
  Url.QueryEscape appSecret +:+ "&" +:+ Url.QueryEscape tokenSecret.

(** The digest of HMAC-SHA1 in standard base64. *)
Definition hmac_sha1_base64 (key text : string) : string :=
  Base64.encode (HMAC.sha1 (Bytes.of_string key) (Bytes.of_string text)).

(** The signature the specification describes for a client and a token
    secret: the signature parameter is left out of the parameters. *)
Definition oauth_signature_by_value (c : FlickrClient) (tokenSecret : string) : string :=
  hmac_sha1_base64 (signing_key (ApiSecret c) tokenSecret)
    (base_string (HTTPVerb c) (EndpointUrl c)
       (canonicalQueryString (delete "oauth_signature" (Args c)))).

(** Two clients whose parameter [a] was added twice: with 2 and then with
    1, and with 1 and then with 2. *)
Definition client_a_2_1 : FlickrClient :=
  with_Args (Url.Add "a" "1" (Url.Add "a" "2" ∅))
    (with_EndpointUrl REQUEST_TOKEN_URL (NewFlickrClient "key" "secret")).

Definition client_a_1_2 : FlickrClient :=
  with_Args (Url.Add "a" "2" (Url.Add "a" "1" ∅))
    (with_EndpointUrl REQUEST_TOKEN_URL (NewFlickrClient "key" "secret")).

(** ** The API signature, by the words of the specification *)

(** Keys and values concatenated, with no separator: each key of [keys]
    in turn, followed by the value [Get] gives for it. *)
Definition key_values (args : Url.Values) (keys : list string) : string :=
  foldr (fun k rest => k +:+ Url.Get args k +:+ rest) EmptyString keys.

(** The same for a list of parameters, each followed by its own value. *)
Definition pair_values (ps : list (string * string)) : string :=
  foldr (fun p rest => p.1 +:+ p.2 +:+ rest) EmptyString ps.

Definition md5_hex (text : string) : string :=
  Hex.encode (MD5.sum (Bytes.of_string text)).

(** The digest over every parameter of the set, by ascending key. *)
Definition api_signature_all_pairs (args : Url.Values) (tokenSecret : string) : string :=
  md5_hex (tokenSecret +:+ pair_values (pairs_of args (Url.sorted_keys args))).

(** A parameter set built by [Args.Set], one pair after the other. *)
Definition set_params (l : list (string * string)) : Url.Values :=
  fold_left (fun m p => Url.Set_ p.1 p.2 m) l ∅.

(** Every key of the set has at least one value. *)
Definition values_present (args : Url.Values) : Prop :=
  forall k vs, args !! k = Some vs -> vs <> [].

(** ** The handshake *)

(** The parameters [SetDefaultArgs] seeds, for a nonce and a timestamp. *)
Definition default_args (nonce timestamp : string) : Url.Values :=
  <["oauth_timestamp" := [timestamp]]>
    (<["oauth_nonce" := [nonce]]>
       (<["oauth_signature_method" := ["HMAC-SHA1"]]>
          (<["oauth_version" := ["1.0"]]> ∅))).

(** The nonce and the timestamp a call of [SetDefaultArgs] produces in the
    world [w]: the clock is read once to seed the random source and once
    more for the timestamp. *)
Definition nonce_in (w : World) : string := (generateNonce w).1.
Definition timestamp_in (w : World) : string :=
  Strconv.FormatInt (Unix (now w (S (reads w)))).

(** The reply of the server to a GET of [url] in the world [w]. *)
Definition reply_in (w : World) (url : string) : HTTPReply :=
  server w (requests w) {| req_method := "GET"; req_url := url |}.

(** The client before it is signed, in the first and in the third step. *)
Definition request_token_call (client : FlickrClient) (w : World) : FlickrClient :=
  with_Args
    (<["oauth_callback" := ["oob"]]>
       (<["oauth_consumer_key" := [ApiKey client]]>
          (default_args (nonce_in w) (timestamp_in w))))
    (with_EndpointUrl REQUEST_TOKEN_URL client).

Definition access_token_call (client : FlickrClient) (reqToken : RequestToken)
    (oauthVerifier : string) (w : World) : FlickrClient :=
  with_Args
    (<["oauth_token" := [OauthToken reqToken]]>
       (<["oauth_consumer_key" := [ApiKey client]]>
          (<["oauth_verifier" := [oauthVerifier]]>
             (default_args (nonce_in w) (timestamp_in w)))))
    (with_EndpointUrl ACCESS_TOKEN_URL client).

(** The lookup of a key in a parameter set written as a chain of
    insertions into the empty set. *)
Ltac lookup_args :=
  unfold default_args;
  repeat (rewrite lookup_insert_ne by done);
  first [apply lookup_insert_eq | apply lookup_empty].

(** A world for the examples: the clock stands at 1446300000 seconds and
    some nanoseconds, the random source gives 0 at every draw, and the
    server grants whatever is asked. *)
Definition example_world : World :=
  {| now := fun _ => 1446300000123456789; reads := 0%nat;
     generator := fun _ _ => 0; seed := 0; drawn := 0%nat;
     server := fun _ rq =>
       if String.prefix REQUEST_TOKEN_URL (req_url rq)
       then Body "oauth_callback_confirmed=true&oauth_token=T1&oauth_token_secret=S1"
       else Body "fullname=Jane%20Doe&oauth_token=A1&oauth_token_secret=AS1&user_nsid=12%40N00&username=jane";
     requests := [] |}.

Definition example_request_token : RequestToken :=
  {| OauthCallbackConfirmed := true; OauthToken := "T1";
     OauthTokenSecret := "S1"; OAuthProblem := EmptyString |}.

(** A client as a call of the groups package leaves it: [GetInfo],
    [GetGroups] and [AddPhoto] assign [POST] to [HTTPVerb] before they
    sign. *)
Definition client_after_post : FlickrClient :=
  {| ApiKey := "key"; ApiSecret := "secret"; EndpointUrl := API_ENDPOINT;
     HTTPVerb := "POST"; Args := ∅;
     FlickrClient_OAuthToken := EmptyString;
     FlickrClient_OAuthTokenSecret := EmptyString |}.

(** ** Further notions *)

(** The nonce the generator makes from a clock reading [t]: the letters
    at the first eight numbers of the random source seeded with [t]. *)
Definition nonce_of (gen : Z -> nat -> Z) (t : Z) : string :=
  string_of_list_ascii
    ((fun i => letter (gen (UnixNano t) i mod 58)) <$> seq 0 8).

(** A world in which every request fails in the transport. *)
Definition failing_world (e : error) : World :=
  {| now := fun _ => 1446300000123456789; reads := 0%nat;
     generator := fun _ _ => 0; seed := 0; drawn := 0%nat;
     server := fun _ _ => GetFails e; requests := [] |}.

(** The parameters that have at least one value. *)
Definition with_values (v : Url.Values) : Url.Values :=
  filter (fun kv : string * list string => kv.2 <> []) v.

(** Two clients of different applications with the same verb, endpoint and
    parameters. *)
Definition client_of_app (apiKey : string) : FlickrClient :=
  with_Args (Url.Set_ "oauth_callback" "oob" (Url.Set_ "oauth_nonce" "11111111" ∅))
    (with_EndpointUrl REQUEST_TOKEN_URL (NewFlickrClient apiKey "secret")).

(** The white space of ASCII: tab, line feed, vertical tab, form feed,
    carriage return and space. *)
Definition ascii_space (b : Z) : bool := (9 <=? b) && (b <=? 13) || (b =? 32).
Definition ascii_spaces (s : string) : Prop :=
  Forall (fun b => ascii_space b = true) (Bytes.of_string s).

(** * Known answers

    The models of the library functions are checked on inputs whose
    results are known. *)

Example md5_empty :
Hex.encode (MD5.sum (Bytes.of_string "")) = "d41d8cd98f00b204e9800998ecf8427e".
Proof. vm_compute. reflexivity. Qed.

Example md5_abc :
Hex.encode (MD5.sum (Bytes.of_string "abc")) = "900150983cd24fb0d6963f7d28e17f72".
Proof. vm_compute. reflexivity. Qed.

Example md5_two_blocks :
Hex.encode (MD5.sum (replicate 56 97)) = "3b0c8ac703f828b04c6c197006d17218".
Proof. vm_compute. reflexivity. Qed.

Example sha1_empty :
Hex.encode (SHA1.sum []) = "da39a3ee5e6b4b0d3255bfef95601890afd80709".
Proof. vm_compute. reflexivity. Qed.

Example sha1_abc :
Hex.encode (SHA1.sum (Bytes.of_string "abc"))
= "a9993e364706816aba3e25717850c26c9cd0d89d".
Proof. vm_compute. reflexivity. Qed.

Example sha1_two_blocks :
Hex.encode (SHA1.sum (replicate 56 97))
= "c2db330f6083854c99d4b5bfb6e8f29f201be699".
Proof. vm_compute. reflexivity. Qed.

Example hmac_sha1_fox :
Base64.encode
  (HMAC.sha1 (Bytes.of_string "key")
     (Bytes.of_string "The quick brown fox jumps over the lazy dog"))
= "3nybhbi3iqa8ino29wqQcBydtNk=".
Proof. vm_compute. reflexivity. Qed.

Example hmac_sha1_long_key :
Hex.encode (HMAC.sha1 (replicate 70 107) (Bytes.of_string "msg"))
= "7471c6a72e1c7251f0281c1813da42f6ecf806fb".
Proof. vm_compute. reflexivity. Qed.

Example trim_space_ascii :
  Strings.TrimSpace (String "010" (String " " ("a b" +:+ String "013" (String "010" EmptyString))))
  = "a b".
Proof. vm_compute. reflexivity. Qed.

Example trim_space_nbsp :
  Strings.TrimSpace (Bytes.to_string [0xC2; 0xA0; 97; 0xE2; 0x80; 0x83; 0xE3; 0x80; 0x80])
  = "a".
Proof. vm_compute. reflexivity. Qed.

Example atoi_examples :
  Strconv.Atoi "42" = (42, None)
  /\ Strconv.Atoi "-7" = (-7, None)
  /\ Strconv.Atoi "+0" = (0, None)
  /\ Strconv.Atoi "" = (0, Some (NumError "Atoi" "" ErrSyntax))
  /\ Strconv.Atoi "-" = (0, Some (NumError "Atoi" "-" ErrSyntax))
  /\ Strconv.Atoi "1_0" = (0, Some (NumError "Atoi" "1_0" ErrSyntax))
  /\ Strconv.Atoi "9223372036854775807" = (9223372036854775807, None)
  /\ Strconv.Atoi "9223372036854775808"
     = (9223372036854775807, Some (NumError "Atoi" "9223372036854775808" ErrRange))
  /\ Strconv.Atoi "-9223372036854775808" = (-9223372036854775808, None).
Proof. repeat split; vm_compute; reflexivity. Qed.

Example format_int_examples :
  Strconv.FormatInt 1446300000 = "1446300000" /\ Strconv.FormatInt 0 = "0"
  /\ Strconv.FormatInt (-12) = "-12".
Proof. repeat split; vm_compute; reflexivity. Qed.

Example query_escape_examples :
  Url.QueryEscape "a b&c=d/~é" = "a+b%26c%3Dd%2F~%C3%A9"
  /\ Url.QueryEscape "https://www.flickr.com/services/oauth/request_token"
     = "https%3A%2F%2Fwww.flickr.com%2Fservices%2Foauth%2Frequest_token".
Proof. repeat split; vm_compute; reflexivity. Qed.

Example query_unescape_examples :
  Url.QueryUnescape "a+b%26c%3dd" = inr "a b&c=d"
  /\ Url.QueryUnescape "ab%zzcd" = inl (EscapeError "%zz")
  /\ Url.QueryUnescape "ab%4" = inl (EscapeError "%4").
Proof. repeat split; vm_compute; reflexivity. Qed.

Example encode_examples :
  Url.Encode (Url.Add "b" "2" (Url.Add "a" "x y" (Url.Add "b" "1" ∅))) = "a=x+y&b=1&b=2"
  /\ Url.Encode ∅ = EmptyString
  /\ Url.Encode (<["k" := []]> (Url.Set_ "z" "1" ∅)) = "z=1".
Proof. repeat split; vm_compute; reflexivity. Qed.

Example parse_query_examples :
  Url.ParseQuery "oauth_callback_confirmed=true&oauth_token=T1&oauth_token_secret=S1"
  = (Url.Set_ "oauth_token_secret" "S1"
       (Url.Set_ "oauth_token" "T1" (Url.Set_ "oauth_callback_confirmed" "true" ∅)), None)
  /\ Url.ParseQuery "a=1&&a=2&b" = (<["b" := [EmptyString]]> (<["a" := ["1"; "2"]]> ∅), None)
  /\ Url.ParseQuery "a=1;b=2&c=3" = (Url.Set_ "c" "3" ∅, Some SemicolonError)
  /\ Url.ParseQuery "a=1&%zz=2&%yy" = (Url.Set_ "a" "1" ∅, Some (EscapeError "%zz")).
Proof. repeat split; vm_compute; reflexivity. Qed.

(** * Properties of the client *)

(** ** Strings *)

Lemma string_get_Some (s : string) (n : nat) :
  (n < String.length s)%nat -> exists c, String.get n s = Some c.
Proof.
  revert n. induction s as [|a s IH]; intros n Hn; simpl in *; [lia|].
  destruct n as [|n]; [eauto|]. apply IH. lia.
Qed.

Lemma string_get_chars (s : string) (n : nat) (c : ascii) :
  String.get n s = Some c -> chars s !! n = Some c.
Proof.
  revert n. induction s as [|a s IH]; intros n Hn; simpl in *; [discriminate|].
  destruct n as [|n]; [done|]. by apply IH.
Qed.

Lemma chars_lookup_get (s : string) (n : nat) (c : ascii) :
  chars s !! n = Some c -> String.get n s = Some c.
Proof.
  revert n. induction s as [|a s IH]; intros n Hn; simpl in *; [discriminate|].
  destruct n as [|n]; [done|]. by apply IH.
Qed.

Lemma chars_length (s : string) : length (chars s) = String.length s.
Proof. induction s; simpl; congruence. Qed.

(** ** The nonce *)

Lemma letter_in_letters (i : Z) :
  0 <= i < 58 -> letter i ∈ chars letters.
Proof.
  intros Hi. unfold letter.
  destruct (string_get_Some letters (Z.to_nat i)) as [c Hc].
  { change (String.length letters) with 58%nat. lia. }
  rewrite Hc. change (c ∈ chars letters). apply list_elem_of_lookup. exists (Z.to_nat i).
  by apply string_get_chars.
Qed.

Lemma letters_covered (c : ascii) :
  c ∈ chars letters -> exists i, 0 <= i < 58 /\ letter i = c.
Proof.
  intros [n Hn]%list_elem_of_lookup.
  assert (n < 58)%nat as Hlt.
  { apply lookup_lt_Some in Hn. by rewrite chars_length in Hn. }
  exists (Z.of_nat n). split; [lia|].
  unfold letter. rewrite Nat2Z.id. by rewrite (chars_lookup_get _ _ _ Hn).
Qed.

Lemma nonce_loop_chars (n : nat) (w : World) :
  String.length (nonce_loop n w).1 = n
  /\ Forall (fun c => c ∈ chars letters) (chars (nonce_loop n w).1).
Proof.
  revert w. induction n as [|n IH]; intros w; simpl.
  - split; [done | constructor].
  - unfold mbind, M_bind, rand_Intn, mret, M_ret. simpl.
    match goal with |- context [nonce_loop n ?w'] =>
      destruct (IH w') as [Hlen Hall]; destruct (nonce_loop n w') as [rest w'']
    end.
    simpl in *. split; [by rewrite Hlen|].
    constructor; [|done].
    apply letter_in_letters. apply Z.mod_pos_bound. lia.
Qed.

Lemma generateNonce_constant_world (i : Z) :
  (generateNonce (constant_world i)).1
  = string_of_list_ascii (replicate 8 (letter (i mod 58))).
Proof. reflexivity. Qed.

(** C6 (as amended): every invocation of the nonce generator returns a
    string of exactly 8 characters, each drawn from the fixed alphabet
    [letters].  The alphabet has 58 distinct characters, all of them ASCII
    letters or digits that [QueryEscape] leaves as they are, and the glyphs
    0, l, O and I are not among them. *)
Theorem generateNonce_alphabet (w : World) :
  let nonce := (generateNonce w).1 in
  String.length nonce = 8%nat
  /\ Forall (fun c => c ∈ chars letters) (chars nonce)
  /\ Url.QueryEscape nonce = nonce
  /\ String.length letters = 58%nat
  /\ NoDup (chars letters)
  /\ Forall (fun c => alphanumeric c = true /\ Url.escape_byte c = String c EmptyString)
       (chars letters)
  /\ Forall (fun c => c ∉ chars letters) ["0"; "l"; "O"; "I"]%char.
Proof.
  assert (Forall (fun c => alphanumeric c = true
                           /\ Url.escape_byte c = String c EmptyString)
            (chars letters)) as Hsafe.
  { assert (forallb (fun c => alphanumeric c
                                && String.eqb (Url.escape_byte c) (String c EmptyString))
              (chars letters) = true) as Hall by (vm_compute; reflexivity).
    rewrite forallb_forall in Hall. apply Forall_forall.
    intros c Hc%list_elem_of_In. apply Hall in Hc.
    apply andb_true_iff in Hc as [? ?%String.eqb_eq]. done. }
  set (w1 := (rand_Seed (UnixNano (time_Now w).1) (time_Now w).2).2).
  assert ((generateNonce w).1 = (nonce_loop 8 w1).1) as Heq by reflexivity.
  destruct (nonce_loop_chars 8 w1) as [Hlen Hall].
  cbv zeta. rewrite Heq.
  split; [exact Hlen|]. split; [exact Hall|].
  split; [|split; [reflexivity|split; [|split; [exact Hsafe|]]]].
  - clear Hlen Heq. induction (nonce_loop 8 w1).1 as [|c s IH]; [reflexivity|].
    inversion Hall as [|? ? Hc Hs]; subst.
    change (Url.escape_byte c +:+ Url.QueryEscape s = String c s).
    rewrite (IH Hs).
    rewrite Forall_forall in Hsafe. destruct (Hsafe c Hc) as [_ ->].
    reflexivity.
  - apply (bool_decide_unpack _). vm_compute. exact I.
  - repeat constructor; apply (bool_decide_unpack _); vm_compute; exact I.
Qed.

(** C6 (counterexample): no alphabet of 57 characters holds every character
    the generator can return; each of the 58 characters of [letters] is
    returned in a world whose random source is constant. *)
Lemma generateNonce_not_57 :
  length (chars letters) = 58%nat
  /\ ~ exists alphabet : list ascii,
        length alphabet = 57%nat
        /\ forall w, Forall (fun c => c ∈ alphabet) (chars (generateNonce w).1).
Proof.
  split; [reflexivity|].
  intros (alphabet & Hlen & Hall).
  assert (chars letters ⊆ alphabet) as Hsub.
  { intros c (i & Hi & <-)%letters_covered.
    specialize (Hall (constant_world i)).
    rewrite generateNonce_constant_world in Hall.
    rewrite Z.mod_small in Hall by lia.
    simpl in Hall. by inversion Hall. }
  assert (NoDup (chars letters)) as Hnd.
  { apply (bool_decide_unpack _). vm_compute. exact I. }
  pose proof (submseteq_length _ _ (NoDup_submseteq _ _ Hnd Hsub)) as Hle.
  change (length (chars letters)) with 58%nat in Hle. lia.
Qed.

(** ** The response envelope *)

(** C7: [HasErrors] is true exactly when the status is the string [fail];
    [ErrorCode] and [ErrorMsg] give the code and the message of the nested
    error, so a response with status [fail], code 1 and message
    [not found] reports an error, 1 and [not found]. *)
Theorem HasErrors_iff_fail (r : FlickrResponse) :
  (HasErrors r = true <-> Status r = "fail")
  /\ (HasErrors r = false <-> Status r <> "fail")
  /\ ErrorCode r = Code (Error r)
  /\ ErrorMsg r = Message (Error r)
  /\ (let failed := {| Status := "fail";
                       Error := {| Code := 1; Message := "not found" |} |} in
      HasErrors failed = true /\ ErrorCode failed = 1
      /\ ErrorMsg failed = "not found").
Proof.
  unfold HasErrors, ErrorCode, ErrorMsg.
  repeat split; try reflexivity.
  - by intros ?%String.eqb_eq.
  - by intros ->.
  - by intros ?%String.eqb_neq.
  - by intros ?%String.eqb_neq.
Qed.

(** Statuses other than [fail], whatever their text, count as success. *)
Example HasErrors_other_statuses :
  Forall (fun st => HasErrors {| Status := st; Error := {| Code := 1; Message := "x" |} |} = false)
    ["ok"; "Fail"; "FAIL"; "fail "; "failed"; "error"; ""].
Proof. repeat constructor. Qed.

(** ** Decimal numbers *)

Lemma digits_value_of_uint_acc (d : Decimal.uint) (acc : positive) :
  Strconv.digits_value (Z.pos acc) (NilEmpty.string_of_uint d)
  = Some (Z.pos (Pos.of_uint_acc d acc)).
Proof.
  revert acc. induction d as [|d IH|d IH|d IH|d IH|d IH|d IH|d IH|d IH|d IH|d IH];
    intros acc; [reflexivity|..];
    cbn [NilEmpty.string_of_uint Strconv.digits_value Pos.of_uint_acc];
    change (Strconv.is_digit _) with true; cbn iota;
    rewrite <- IH; f_equal; vm_compute Bytes.of_ascii; lia.
Qed.

Lemma digits_value_of_uint (d : Decimal.uint) :
  Strconv.digits_value 0 (NilEmpty.string_of_uint d) = Some (Z.of_N (Pos.of_uint d)).
Proof.
  induction d as [|d IH|d IH|d IH|d IH|d IH|d IH|d IH|d IH|d IH|d IH];
    [reflexivity|exact IH|..];
    cbn [NilEmpty.string_of_uint Strconv.digits_value Pos.of_uint];
    change (Strconv.is_digit _) with true; cbn iota;
    cbn [Z.of_N]; rewrite <- digits_value_of_uint_acc; f_equal.
Qed.

Lemma digits_value_to_uint (p : positive) :
  Strconv.digits_value 0 (NilEmpty.string_of_uint (Pos.to_uint p)) = Some (Z.pos p).
Proof. by rewrite digits_value_of_uint, DecimalPos.Unsigned.of_to. Qed.

(** [Atoi] reads back what [%d] prints, for every value of an [int]. *)
Lemma Atoi_FormatInt (n : Z) :
  - 2 ^ 63 <= n < 2 ^ 63 -> Strconv.Atoi (Strconv.FormatInt n) = (n, None).
Proof.
  intros Hn. destruct n as [|p|p]; [reflexivity|..];
    unfold Strconv.FormatInt, Z.to_int, NilZero.string_of_int, NilZero.string_of_uint;
    pose proof (DecimalPos.Unsigned.to_uint_nonnil p) as Hnil;
    pose proof (digits_value_to_uint p) as Hval;
    destruct (Pos.to_uint p) as [|d|d|d|d|d|d|d|d|d|d]; try done;
    unfold Strconv.Atoi; cbn [NilEmpty.string_of_uint] in *; cbn iota; cbn beta;
    rewrite Hval; cbn iota;
    change (2 ^ (Strconv.IntSize - 1)) with (2 ^ 63).
  all: try (rewrite (proj2 (Z.leb_gt _ _)) by lia; reflexivity).
  all: rewrite (proj2 (Z.ltb_ge _ _)) by lia; reflexivity.
Qed.

(** ** Groups *)

Lemma Atoi_empty : Strconv.Atoi EmptyString = (0, Some (NumError "Atoi" EmptyString ErrSyntax)).
Proof. reflexivity. Qed.

(** C10: [CanAddPhotos] is true exactly when [strconv.Atoi] reads the
    attribute [Remaining] as an integer and that integer is greater than
    zero; when the attribute is empty or [Atoi] reports an error the result
    is false.  For the decimal text of an integer [n] that fits an [int],
    the result is true exactly when [n] is greater than zero. *)
Theorem CanAddPhotos_iff (group : Groups.GroupInfoResponse) :
  let remaining := Groups.Remaining (Groups.Throttle (Groups.Group group)) in
  (Groups.CanAddPhotos group = true
   <-> exists val, Strconv.Atoi remaining = (val, None) /\ 0 < val)
  /\ ((exists val e, Strconv.Atoi remaining = (val, Some e))
      -> Groups.CanAddPhotos group = false)
  /\ (remaining = EmptyString -> Groups.CanAddPhotos group = false)
  /\ (forall n, - 2 ^ 63 <= n < 2 ^ 63 -> remaining = Strconv.FormatInt n ->
        (Groups.CanAddPhotos group = true <-> 0 < n)).
Proof.
  cbv zeta. unfold Groups.CanAddPhotos.
  destruct (Strconv.Atoi (Groups.Remaining (Groups.Throttle (Groups.Group group))))
    as [val err] eqn:Hatoi.
  split; [|split; [|split]].
  - destruct err as [e|]; split.
    + discriminate.
    + intros (v & Hv & _). discriminate.
    + intros Hpos%Z.ltb_lt. exists val. done.
    + intros (v & [= <-] & Hpos). by apply Z.ltb_lt.
  - intros (v & e & [= -> ->]). reflexivity.
  - intros Hempty. rewrite Hempty, Atoi_empty in Hatoi.
    by injection Hatoi as <- <-.
  - intros n Hn Hrem. rewrite Hrem, (Atoi_FormatInt n Hn) in Hatoi.
    injection Hatoi as <- <-. apply Z.ltb_lt.
Qed.

Example CanAddPhotos_examples :
  Groups.CanAddPhotos (group_with_remaining "3") = true
  /\ Groups.CanAddPhotos (group_with_remaining "+12") = true
  /\ Forall (fun s => Groups.CanAddPhotos (group_with_remaining s) = false)
       ["0"; "-4"; ""; "many"; "3 "; "1.5"; "0x10"; "99999999999999999999"].
Proof.
  repeat split; try (vm_compute; reflexivity).
  apply (bool_decide_unpack _). vm_compute. exact I.
Qed.

(** ** Signing *)

Lemma with_Args_id (c : FlickrClient) : with_Args (Args c) c = c.
Proof. by destruct c. Qed.

Lemma unsigned_insert (key : string) (old : list string) (c : FlickrClient) :
  unsigned key (with_Args (<[key := old]> (Args c)) c) = unsigned key c.
Proof.
  unfold unsigned, Url.Del. simpl. rewrite delete_insert_eq. reflexivity.
Qed.

Lemma Sign_unsigned (ts : string) (c : FlickrClient) :
  Sign ts c
  = let u := unsigned "oauth_signature" c in
    with_Args (<["oauth_signature" := [getSignature u ts]]> (Args u)) u.
Proof. reflexivity. Qed.

Lemma ApiSign_unsigned (ts : string) (c : FlickrClient) :
  ApiSign ts c
  = let u := unsigned "api_sig" c in
    sig ← getApiSignature u ts;
    Some (with_Args (<["api_sig" := [sig]]> (Args u)) u).
Proof. reflexivity. Qed.

Lemma unsigned_signed (key : string) (sig : list string) (c : FlickrClient) :
  unsigned key (with_Args (<[key := sig]> (Args (unsigned key c))) (unsigned key c))
  = unsigned key c.
Proof.
  unfold unsigned, Url.Del, with_Args. simpl.
  rewrite delete_insert_eq, delete_delete_eq. reflexivity.
Qed.

Lemma unsigned_Sign (ts : string) (c : FlickrClient) :
  unsigned "oauth_signature" (Sign ts c) = unsigned "oauth_signature" c.
Proof. rewrite Sign_unsigned. apply unsigned_signed. Qed.

Lemma ApiSign_Some (ts : string) (c : FlickrClient) (sig : string) :
  getApiSignature (unsigned "api_sig" c) ts = Some sig ->
  ApiSign ts c
  = Some (with_Args (<["api_sig" := [sig]]> (Args (unsigned "api_sig" c)))
            (unsigned "api_sig" c)).
Proof. intros Hsig. rewrite ApiSign_unsigned. cbv zeta. by rewrite Hsig. Qed.

Lemma ApiSign_None (ts : string) (c : FlickrClient) :
  getApiSignature (unsigned "api_sig" c) ts = None -> ApiSign ts c = None.
Proof. intros Hsig. rewrite ApiSign_unsigned. cbv zeta. by rewrite Hsig. Qed.

Lemma Sign_absorbs (ts : string) (old : list string) (c : FlickrClient) :
  Sign ts (with_Args (<["oauth_signature" := old]> (Args c)) c) = Sign ts c.
Proof. by rewrite !Sign_unsigned, unsigned_insert. Qed.

Lemma ApiSign_absorbs (ts : string) (old : list string) (c : FlickrClient) :
  ApiSign ts (with_Args (<["api_sig" := old]> (Args c)) c) = ApiSign ts c.
Proof. by rewrite !ApiSign_unsigned, unsigned_insert. Qed.


(** ** Parsing the token responses *)

Lemma ParseBool_true (s : string) :
  (Strconv.ParseBool s).1 = true
  <-> s ∈ ["1"; "t"; "T"; "TRUE"; "true"; "True"].
Proof.
  unfold Strconv.ParseBool.
  repeat case_bool_decide; simpl; split; try done.
Qed.

Lemma ParseBool_error (s : string) (e : error) :
  (Strconv.ParseBool s).2 = Some e -> (Strconv.ParseBool s).1 = false.
Proof.
  unfold Strconv.ParseBool. repeat case_bool_decide; simpl; done.
Qed.

Lemma Get_missing (val : Url.Values) (key : string) :
  val !! key = None -> Url.Get val key = EmptyString.
Proof. unfold Url.Get, Url.index. by intros ->. Qed.

(** C5 (as amended): for every response body that [url.ParseQuery] reads
    without error and in which [oauth_problem] has a non-empty value,
    [ParseRequestToken] and [ParseOAuthToken] each return an error together
    with a token whose problem field is that value; the error of the first
    has code 20, the error of the second code 30, and the two differ. *)
Theorem oauth_problem_rejected (body : string) (val : Url.Values) :
  Url.ParseQuery (Strings.TrimSpace body) = (val, None) ->
  Url.Get val "oauth_problem" <> EmptyString ->
  ParseRequestToken body
  = (Some {| OauthCallbackConfirmed := false; OauthToken := EmptyString;
             OauthTokenSecret := EmptyString;
             OAuthProblem := Url.Get val "oauth_problem" |},
     Some (NewError 20))
  /\ ParseOAuthToken body
     = (Some {| OAuthToken_OAuthToken := EmptyString;
                OAuthToken_OAuthTokenSecret := EmptyString;
                OAuthToken_UserNsid := EmptyString;
                OAuthToken_Username := EmptyString;
                OAuthToken_Fullname := EmptyString;
                OAuthToken_OAuthProblem := Url.Get val "oauth_problem" |},
        Some (NewError 30))
  /\ NewError 20 <> NewError 30.
Proof.
  intros Hparse Hproblem%String.eqb_neq.
  unfold ParseRequestToken, ParseOAuthToken.
  rewrite Hparse, Hproblem. simpl. repeat split. discriminate.
Qed.

(** C5 (witness): the body [oauth_problem=permission_denied]. *)
Lemma oauth_problem_rejected_witness :
  let body := "oauth_problem=permission_denied" in
  let val := Url.Set_ "oauth_problem" "permission_denied" ∅ in
  Url.ParseQuery (Strings.TrimSpace body) = (val, None)
  /\ Url.Get val "oauth_problem" <> EmptyString
  /\ ParseRequestToken body
     = (Some {| OauthCallbackConfirmed := false; OauthToken := EmptyString;
                OauthTokenSecret := EmptyString;
                OAuthProblem := Url.Get val "oauth_problem" |},
        Some (NewError 20))
  /\ ParseOAuthToken body
     = (Some {| OAuthToken_OAuthToken := EmptyString;
                OAuthToken_OAuthTokenSecret := EmptyString;
                OAuthToken_UserNsid := EmptyString;
                OAuthToken_Username := EmptyString;
                OAuthToken_Fullname := EmptyString;
                OAuthToken_OAuthProblem := Url.Get val "oauth_problem" |},
        Some (NewError 30))
  /\ NewError 20 <> NewError 30.
Proof.
  cbv zeta.
  assert (Url.ParseQuery (Strings.TrimSpace "oauth_problem=permission_denied")
          = (Url.Set_ "oauth_problem" "permission_denied" ∅, None)) as Hparse
    by (vm_compute; reflexivity).
  assert (Url.Get (Url.Set_ "oauth_problem" "permission_denied" ∅) "oauth_problem"
          <> EmptyString) as Hproblem
    by (vm_compute; discriminate).
  exact (conj Hparse (conj Hproblem
           (oauth_problem_rejected _ _ Hparse Hproblem))).
Defined.

(** C5 (counterexample): a body that carries [oauth_problem] and a field
    with a broken escape.  Both parsers return no token at all and the same
    error, the one of [url.ParseQuery]. *)
Lemma oauth_problem_malformed_body :
  let body := "oauth_problem=permission_denied&%zz" in
  Url.Get (body_values body) "oauth_problem" = "permission_denied"
  /\ ParseRequestToken body = (None, Some (EscapeError "%zz"))
  /\ ParseOAuthToken body = (None, Some (EscapeError "%zz"))
  /\ ~ problem_reported body.
Proof.
  cbv zeta.
  assert (ParseRequestToken "oauth_problem=permission_denied&%zz"
          = (None, Some (EscapeError "%zz"))) as Hrt
    by (vm_compute; reflexivity).
  repeat split; try (vm_compute; reflexivity).
  intros Hstated. destruct Hstated as (rt & e1 & tok & e2 & Hrt' & _).
  - vm_compute. discriminate.
  - rewrite Hrt in Hrt'. discriminate.
Qed.

(** C9 (as amended): for every response body that [url.ParseQuery] reads
    without error and in which [oauth_problem] is absent or empty,
    [ParseRequestToken] returns no error and a token made of the values of
    [oauth_token] and [oauth_token_secret]; its flag is true exactly when
    [oauth_callback_confirmed] is one of the spellings of true, and false
    when the field is missing or is not a boolean. *)
Theorem request_token_parsed (body : string) (val : Url.Values) :
  Url.ParseQuery (Strings.TrimSpace body) = (val, None) ->
  Url.Get val "oauth_problem" = EmptyString ->
  exists rt : RequestToken,
    ParseRequestToken body = (Some rt, None)
    /\ OauthToken rt = Url.Get val "oauth_token"
    /\ OauthTokenSecret rt = Url.Get val "oauth_token_secret"
    /\ OAuthProblem rt = EmptyString
    /\ OauthCallbackConfirmed rt
       = (Strconv.ParseBool (Url.Get val "oauth_callback_confirmed")).1
    /\ (OauthCallbackConfirmed rt = true
        <-> Url.Get val "oauth_callback_confirmed"
            ∈ ["1"; "t"; "T"; "TRUE"; "true"; "True"])
    /\ (val !! "oauth_callback_confirmed" = None
        -> OauthCallbackConfirmed rt = false)
    /\ (forall e, (Strconv.ParseBool (Url.Get val "oauth_callback_confirmed")).2 = Some e
        -> OauthCallbackConfirmed rt = false).
Proof.
  intros Hparse Hproblem.
  unfold ParseRequestToken. rewrite Hparse, Hproblem. simpl.
  destruct (Strconv.ParseBool (Url.Get val "oauth_callback_confirmed"))
    as [confirmed err] eqn:Hbool.
  eexists. split; [reflexivity|]. simpl.
  do 4 (split; [reflexivity|]). split; [|split].
  - rewrite <- ParseBool_true, Hbool. done.
  - intros Hnone. rewrite (Get_missing _ _ Hnone) in Hbool.
    by injection Hbool as <- _.
  - intros e He.
    pose proof (ParseBool_error (Url.Get val "oauth_callback_confirmed") e) as Hfalse.
    rewrite Hbool in Hfalse. by apply Hfalse.
Qed.

(** C9 (witness): the body that confirms the callback and gives the token
    [T1] with the secret [S1]. *)
Lemma request_token_parsed_witness :
  let body := "oauth_callback_confirmed=true&oauth_token=T1&oauth_token_secret=S1" in
  let val := Url.Set_ "oauth_token_secret" "S1"
               (Url.Set_ "oauth_token" "T1"
                  (Url.Set_ "oauth_callback_confirmed" "true" ∅)) in
  Url.ParseQuery (Strings.TrimSpace body) = (val, None)
  /\ Url.Get val "oauth_problem" = EmptyString
  /\ exists rt : RequestToken,
       ParseRequestToken body = (Some rt, None)
       /\ OauthToken rt = Url.Get val "oauth_token"
       /\ OauthTokenSecret rt = Url.Get val "oauth_token_secret"
       /\ OAuthProblem rt = EmptyString
       /\ OauthCallbackConfirmed rt
          = (Strconv.ParseBool (Url.Get val "oauth_callback_confirmed")).1
       /\ (OauthCallbackConfirmed rt = true
           <-> Url.Get val "oauth_callback_confirmed"
               ∈ ["1"; "t"; "T"; "TRUE"; "true"; "True"])
       /\ (val !! "oauth_callback_confirmed" = None
           -> OauthCallbackConfirmed rt = false)
       /\ (forall e, (Strconv.ParseBool (Url.Get val "oauth_callback_confirmed")).2 = Some e
           -> OauthCallbackConfirmed rt = false).
Proof.
  cbv zeta.
  assert (Url.ParseQuery
            (Strings.TrimSpace
               "oauth_callback_confirmed=true&oauth_token=T1&oauth_token_secret=S1")
          = (Url.Set_ "oauth_token_secret" "S1"
               (Url.Set_ "oauth_token" "T1"
                  (Url.Set_ "oauth_callback_confirmed" "true" ∅)), None)) as Hparse
    by (vm_compute; reflexivity).
  assert (Url.Get (Url.Set_ "oauth_token_secret" "S1"
                     (Url.Set_ "oauth_token" "T1"
                        (Url.Set_ "oauth_callback_confirmed" "true" ∅)))
            "oauth_problem" = EmptyString) as Hproblem
    by (vm_compute; reflexivity).
  exact (conj Hparse (conj Hproblem
           (request_token_parsed _ _ Hparse Hproblem))).
Defined.

(** The response of the specification: confirmed, token [T1], secret
    [S1], no error. *)
Example ParseRequestToken_T1 :
  ParseRequestToken "oauth_callback_confirmed=true&oauth_token=T1&oauth_token_secret=S1"
  = (Some {| OauthCallbackConfirmed := true; OauthToken := "T1";
             OauthTokenSecret := "S1"; OAuthProblem := EmptyString |}, None).
Proof. vm_compute. reflexivity. Qed.

(** C9 (counterexample): a body without [oauth_problem] whose last field
    has a broken escape: an error and no token. *)
Lemma request_token_malformed_body :
  let body := "oauth_token=T1&oauth_token_secret=%zz" in
  body_values body !! "oauth_problem" = None
  /\ Url.Get (body_values body) "oauth_problem" = EmptyString
  /\ ParseRequestToken body = (None, Some (EscapeError "%zz"))
  /\ ~ token_returned body.
Proof.
  cbv zeta.
  assert (ParseRequestToken "oauth_token=T1&oauth_token_secret=%zz"
          = (None, Some (EscapeError "%zz"))) as Hrt
    by (vm_compute; reflexivity).
  repeat split; try (vm_compute; reflexivity).
  intros Hstated. destruct Hstated as (rt & Hrt' & _).
  - vm_compute. reflexivity.
  - rewrite Hrt in Hrt'. discriminate.
Qed.

(** ** Escaping and the query format *)

Lemma string_app_cons (c : ascii) (a b : string) :
  String c a +:+ b = String c (a +:+ b).
Proof. reflexivity. Qed.

Lemma string_app_nil_l (b : string) : EmptyString +:+ b = b.
Proof. reflexivity. Qed.

Lemma string_app_nil_r (a : string) : a +:+ EmptyString = a.
Proof. induction a as [|c a IH]; [done|]. by rewrite string_app_cons, IH. Qed.

Lemma string_app_assoc (a b c : string) : (a +:+ b) +:+ c = a +:+ (b +:+ c).
Proof. induction a as [|x a IH]; [done|]. by rewrite !string_app_cons, IH. Qed.

Lemma ContainsByte_app (x : ascii) (a b : string) :
  Strings.ContainsByte x (a +:+ b)
  = Strings.ContainsByte x a || Strings.ContainsByte x b.
Proof.
  induction a as [|c a IH]; [done|].
  rewrite string_app_cons. simpl. rewrite IH. by rewrite orb_assoc.
Qed.

Lemma Split_app (sep : ascii) (a b : string) :
  Strings.ContainsByte sep a = false ->
  Strings.Split sep (a +:+ String sep b) = a :: Strings.Split sep b.
Proof.
  induction a as [|c a IH]; intros Hno.
  - rewrite string_app_nil_l. simpl. by rewrite Ascii.eqb_refl.
  - simpl in Hno. apply orb_false_elim in Hno as [Hc Ha].
    rewrite string_app_cons. simpl. rewrite Ascii.eqb_sym, Hc, (IH Ha). done.
Qed.

Lemma Split_none (sep : ascii) (a : string) :
  Strings.ContainsByte sep a = false -> Strings.Split sep a = [a].
Proof.
  induction a as [|c a IH]; intros Hno; [done|].
  simpl in Hno. apply orb_false_elim in Hno as [Hc Ha].
  simpl. rewrite Ascii.eqb_sym, Hc, (IH Ha). done.
Qed.

Lemma Cut_app (sep : ascii) (a b : string) :
  Strings.ContainsByte sep a = false ->
  Strings.Cut sep (a +:+ String sep b) = (a, b, true).
Proof.
  induction a as [|c a IH]; intros Hno.
  - rewrite string_app_nil_l. simpl. by rewrite Ascii.eqb_refl.
  - simpl in Hno. apply orb_false_elim in Hno as [Hc Ha].
    rewrite string_app_cons. simpl. rewrite Ascii.eqb_sym, Hc, (IH Ha). done.
Qed.

(** The bytes that structure a query are escaped. *)
Lemma escape_byte_separators (x c : ascii) (rest : string) :
  x ∈ ["&"; "="; ";"]%char ->
  Strings.ContainsByte x (Url.escape_byte c +:+ rest) = Strings.ContainsByte x rest.
Proof.
  intros Hx.
  assert (Strings.ContainsByte x (Url.escape_byte c) = false) as Hc.
  { repeat (apply elem_of_cons in Hx as [->|Hx]); [| | |by apply elem_of_nil in Hx];
      destruct c as [[] [] [] [] [] [] [] []]; reflexivity. }
  by rewrite ContainsByte_app, Hc.
Qed.

Lemma QueryEscape_separators (x : ascii) (s : string) :
  x ∈ ["&"; "="; ";"]%char -> Strings.ContainsByte x (Url.QueryEscape s) = false.
Proof.
  intros Hx. induction s as [|c s IH]; [done|].
  simpl. by rewrite escape_byte_separators.
Qed.

Lemma QueryUnescape_escape_byte (c : ascii) (rest : string) :
  Url.QueryUnescape (Url.escape_byte c +:+ rest)
  = match Url.QueryUnescape rest with
    | inr t => inr (String c t)
    | inl e => inl e
    end.
Proof. destruct c as [[] [] [] [] [] [] [] []]; reflexivity. Qed.

(** Unescaping undoes escaping. *)
Lemma QueryUnescape_QueryEscape (s : string) :
  Url.QueryUnescape (Url.QueryEscape s) = inr s.
Proof.
  induction s as [|c s IH]; [done|].
  simpl. by rewrite QueryUnescape_escape_byte, IH.
Qed.

(** A field [key=value] written by [Encode] is read back by [ParseQuery]
    as the pair it was made of. *)
Lemma parse_field_escaped (key value : string) (m : Url.Values) (err : option error) :
  Url.parse_field (m, err) (Url.QueryEscape key +:+ "=" +:+ Url.QueryEscape value)
  = (Url.Add key value m, err).
Proof.
  unfold Url.parse_field.
  assert (Strings.ContainsByte ";"
            (Url.QueryEscape key +:+ "=" +:+ Url.QueryEscape value) = false) as ->.
  { rewrite !ContainsByte_app, !QueryEscape_separators by set_solver. done. }
  assert (String.eqb (Url.QueryEscape key +:+ "=" +:+ Url.QueryEscape value)
            EmptyString = false) as ->.
  { by destruct (Url.QueryEscape key). }
  change ("=" +:+ Url.QueryEscape value) with (String "=" (Url.QueryEscape value)).
  rewrite Cut_app by (apply QueryEscape_separators; set_solver).
  by rewrite !QueryUnescape_QueryEscape.
Qed.

(** ** The encoding of a parameter set *)

Lemma string_app_empty_inv (a b : string) :
  a +:+ b = EmptyString -> a = EmptyString /\ b = EmptyString.
Proof. destruct a; [done|discriminate]. Qed.

Lemma write_pair_nonempty (k buf x : string) :
  String.eqb (Url.write_pair k buf x) EmptyString = false.
Proof.
  apply String.eqb_neq. unfold Url.write_pair.
  intros [_ Hrest]%string_app_empty_inv.
  apply string_app_empty_inv in Hrest as [_ Heq]. discriminate Heq.
Qed.

Lemma Encode_values_fold (k : string) (vs : list string) (buf : string) :
  fold_left (Url.write_pair (Url.QueryEscape k)) vs buf
  = fold_left (fun buf p => Url.write_pair (Url.QueryEscape p.1) buf p.2)
      ((fun x => (k, x)) <$> vs) buf.
Proof. revert buf. induction vs as [|x vs IH]; intros buf; [done|]. apply IH. Qed.

Lemma Encode_keys_fold (v : Url.Values) (keys : list string) (buf : string) :
  fold_left
    (fun buf k => fold_left (Url.write_pair (Url.QueryEscape k)) (Url.index v k) buf)
    keys buf
  = fold_left (fun buf p => Url.write_pair (Url.QueryEscape p.1) buf p.2)
      (pairs_of v keys) buf.
Proof.
  revert buf. induction keys as [|k keys IH]; intros buf; [done|].
  unfold pairs_of. rewrite bind_cons, fold_left_app.
  simpl. rewrite Encode_values_fold. apply IH.
Qed.

(** The buffer after the pairs [ps] are written to it. *)
Lemma write_pairs_concat (ps : list (string * string)) (buf : string) :
  fold_left (fun buf p => Url.write_pair (Url.QueryEscape p.1) buf p.2) ps buf
  = buf
    +:+ (if String.eqb buf EmptyString then EmptyString
         else match ps with [] => EmptyString | _ => "&" end)
    +:+ String.concat "&" (form_pair <$> ps).
Proof.
  revert buf. induction ps as [|p ps IH]; intros buf.
  - simpl. destruct (String.eqb buf EmptyString); by rewrite !string_app_nil_r.
  - cbn [fold_left]. rewrite IH, write_pair_nonempty.
    unfold Url.write_pair. fold (form_pair p).
    destruct (String.eqb buf EmptyString) eqn:Hbuf.
    + apply String.eqb_eq in Hbuf as ->. rewrite !string_app_nil_l.
      destruct ps; [by rewrite !string_app_nil_r|]. done.
    + rewrite !string_app_assoc. destruct ps; [by rewrite !string_app_nil_r|]. done.
Qed.

(** [Encode] joins with [&] the encodings of the pairs, taken by ascending
    key and, for one key, in the order its values are stored. *)
Lemma Encode_concat (v : Url.Values) :
  Url.Encode v = String.concat "&" (form_pair <$> pairs_of v (Url.sorted_keys v)).
Proof.
  unfold Url.Encode. rewrite Encode_keys_fold, write_pairs_concat.
  by rewrite String.eqb_refl, !string_app_nil_l.
Qed.

Lemma form_pair_separator (p : string * string) :
  Strings.ContainsByte "&" (form_pair p) = false.
Proof.
  unfold form_pair.
  rewrite !ContainsByte_app, !QueryEscape_separators by set_solver. done.
Qed.

(** [ParseQuery] reads a query made of encoded pairs back as these pairs,
    added one after the other. *)
Lemma parse_fields_pairs (ps : list (string * string)) (m : Url.Values)
    (err : option error) :
  fold_left Url.parse_field
    (Strings.Split "&" (String.concat "&" (form_pair <$> ps))) (m, err)
  = (fold_left (fun m p => Url.Add p.1 p.2 m) ps m, err).
Proof.
  revert m. induction ps as [|p ps IH]; intros m; [done|].
  destruct ps as [|p' ps].
  - change (String.concat "&" (form_pair <$> [p])) with (form_pair p).
    rewrite Split_none by apply form_pair_separator.
    cbn [fold_left]. apply parse_field_escaped.
  - change (String.concat "&" (form_pair <$> p :: p' :: ps))
      with (form_pair p +:+ String "&" (String.concat "&" (form_pair <$> p' :: ps))).
    rewrite Split_app by apply form_pair_separator.
    cbn [fold_left].
    rewrite (parse_field_escaped p.1 p.2 m err : Url.parse_field (m, err) (form_pair p) = _).
    apply IH.
Qed.

Lemma ParseQuery_Encode (v : Url.Values) :
  Url.ParseQuery (Url.Encode v)
  = (fold_left (fun m p => Url.Add p.1 p.2 m) (pairs_of v (Url.sorted_keys v)) ∅,
     None).
Proof. unfold Url.ParseQuery. rewrite Encode_concat. apply parse_fields_pairs. Qed.

Lemma Add_fresh (key value : string) (m : Url.Values) :
  m !! key = None -> Url.Add key value m = <[key := [value]]> m.
Proof. unfold Url.Add, Url.index. by intros ->. Qed.

Lemma Get_insert (key : string) (x : string) (xs : list string) (m : Url.Values) :
  Url.Get (<[key := x :: xs]> m) key = x.
Proof. unfold Url.Get, Url.index. by rewrite lookup_insert_eq. Qed.

Lemma Get_insert_ne (key key' : string) (xs : list string) (m : Url.Values) :
  key' <> key -> Url.Get (<[key' := xs]> m) key = Url.Get m key.
Proof. intros. unfold Url.Get, Url.index. by rewrite lookup_insert_ne. Qed.

(** A string of unreserved characters is its own encoding. *)
Lemma QueryEscape_unreserved (s : string) :
  Forall (fun c => Url.escape_byte c = String c EmptyString) (chars s) ->
  Url.QueryEscape s = s.
Proof.
  induction s as [|c s IH]; [done|].
  intros [Hc Hs]%Forall_cons. simpl. by rewrite Hc, (IH Hs).
Qed.

(** ** The authorization URL *)

Lemma authorize_keys (token : string) :
  Url.sorted_keys (Url.Set_ "perms" "delete" (Url.Set_ "oauth_token" token ∅))
  = ["oauth_token"; "perms"].
Proof. vm_compute. reflexivity. Qed.

(** C8: [GetAuthorizeUrl] sends no request (the world is left as it was),
    sets the endpoint to the authorization URL and the parameters to
    exactly [oauth_token], with the token of the request token, and [perms],
    with [delete].  The URL it returns is the authorization URL followed by
    the query [oauth_token=T1&perms=delete], the token URL-encoded; read as
    a query, it gives back the token. *)
Theorem GetAuthorizeUrl_url (client : FlickrClient) (reqToken : RequestToken)
    (w : World) :
  let '(client', (url, err), w') := GetAuthorizeUrl client reqToken w in
  let query := "oauth_token=" +:+ Url.QueryEscape (OauthToken reqToken)
               +:+ "&perms=delete" in
  w' = w
  /\ requests w' = requests w
  /\ err = None
  /\ EndpointUrl client' = AUTHORIZE_URL
  /\ Args client'
     = <["perms" := ["delete"]]> (<["oauth_token" := [OauthToken reqToken]]> ∅)
  /\ Args client' !! "oauth_token" = Some [OauthToken reqToken]
  /\ Args client' !! "perms" = Some ["delete"]
  /\ (forall key, key <> "oauth_token" -> key <> "perms" -> Args client' !! key = None)
  /\ url = AUTHORIZE_URL +:+ "?" +:+ query
  /\ Url.ParseQuery query = (Args client', None)
  /\ Url.Get (Url.ParseQuery query).1 "oauth_token" = OauthToken reqToken
  /\ (Forall (fun c => Url.escape_byte c = String c EmptyString)
        (chars (OauthToken reqToken)) ->
      url = AUTHORIZE_URL +:+ "?oauth_token=" +:+ OauthToken reqToken
            +:+ "&perms=delete").
Proof.
  unfold GetAuthorizeUrl. cbn [mret M_ret Args with_Args EndpointUrl with_EndpointUrl].
  set (token := OauthToken reqToken).
  set (args := Url.Set_ "perms" "delete" (Url.Set_ "oauth_token" token ∅)).
  assert (pairs_of args (Url.sorted_keys args)
          = [("oauth_token", token); ("perms", "delete")]) as Hpairs.
  { unfold args. rewrite authorize_keys. unfold pairs_of, Url.index, Url.Set_.
    cbn [mbind list_bind fmap list_fmap app].
    rewrite lookup_insert_ne by done. rewrite !lookup_insert_eq. done. }
  assert (Url.Encode args
          = "oauth_token=" +:+ Url.QueryEscape token +:+ "&perms=delete") as Henc.
  { rewrite Encode_concat, Hpairs.
    cbn [fmap list_fmap String.concat]. unfold form_pair. cbn [fst snd].
    change (Url.QueryEscape "oauth_token") with "oauth_token".
    change (Url.QueryEscape "perms" +:+ "=" +:+ Url.QueryEscape "delete")
      with "perms=delete".
    rewrite !string_app_assoc. reflexivity. }
  assert (Url.ParseQuery ("oauth_token=" +:+ Url.QueryEscape token +:+ "&perms=delete")
          = (args, None)) as Hparse.
  { rewrite <- Henc, ParseQuery_Encode, Hpairs. cbn [fold_left fst snd].
    rewrite (Add_fresh "oauth_token") by apply lookup_empty.
    rewrite Add_fresh; [done|].
    rewrite lookup_insert_ne by done. apply lookup_empty. }
  split; [reflexivity|]. split; [reflexivity|]. split; [reflexivity|].
  split; [reflexivity|]. split; [reflexivity|].
  split; [unfold args, Url.Set_; rewrite lookup_insert_ne by done;
          apply lookup_insert_eq|].
  split; [apply lookup_insert_eq|].
  split.
  { intros key H1 H2. unfold args, Url.Set_.
    rewrite !lookup_insert_ne by done. apply lookup_empty. }
  split.
  { change (GetUrl _) with (AUTHORIZE_URL +:+ "?" +:+ Url.Encode args).
    by rewrite Henc. }
  split; [exact Hparse|].
  split.
  { rewrite Hparse. cbn [fst]. unfold args, Url.Set_.
    rewrite Get_insert_ne by done. apply Get_insert. }
  intros Hsafe.
  change (GetUrl _) with (AUTHORIZE_URL +:+ "?" +:+ Url.Encode args).
  by rewrite Henc, (QueryEscape_unreserved _ Hsafe).
Qed.

Example GetAuthorizeUrl_T1 :
  (GetAuthorizeUrl (NewFlickrClient "key" "secret")
     {| OauthCallbackConfirmed := true; OauthToken := "T1";
        OauthTokenSecret := "S1"; OAuthProblem := EmptyString |}
     (constant_world 0)).1.2
  = ("https://www.flickr.com/services/oauth/authorize?oauth_token=T1&perms=delete",
     None).
Proof. vm_compute. reflexivity. Qed.

(** ** The OAuth signature *)

(** C1 (counterexample): with the values 2 and 1 stored in this order
    under the key [a], [Encode] keeps the order of the values, where the
    order by key and value puts 1 first; the signature [Sign] stores is not
    the one computed on the parameters sorted by key and value. *)
Lemma Sign_keeps_value_order :
  Args client_a_2_1 = <["a" := ["2"; "1"]]> ∅
  /\ Url.Encode (Args client_a_2_1) = "a=2&a=1"
  /\ canonicalQueryString (Args client_a_2_1) = "a=1&a=2"
  /\ Args (Sign EmptyString client_a_2_1) !! "oauth_signature"
     = Some ["mATBYUhL+tueopf+zEp9WWFx914="]
  /\ oauth_signature_by_value client_a_2_1 EmptyString
     = "lZdCa6NMMQedTimbzsTL/mI8hUM="
  /\ Args (Sign EmptyString client_a_2_1) !! "oauth_signature"
     <> Some [oauth_signature_by_value client_a_2_1 EmptyString].
Proof.
  repeat split; try (vm_compute; reflexivity).
  vm_compute. discriminate.
Qed.

(** *** The order of the parameters *)

Global Instance param_le_trans : Transitive param_le.
Proof.
  intros [k1 x1] [k2 x2] [k3 x3]. unfold param_le. simpl.
  destruct (decide (k1 = k2)) as [H12|H12], (decide (k2 = k3)) as [H23|H23],
    (decide (k1 = k3)) as [H13|H13]; intros Hpq Hqr; subst;
    first [done | by etrans | congruence | idtac].
  exfalso. apply H12. by apply (anti_symm String.le).
Qed.

Global Instance param_le_antisymm : AntiSymm (=) param_le.
Proof.
  intros [k1 x1] [k2 x2]. unfold param_le. simpl.
  destruct (decide (k1 = k2)) as [H12|H12], (decide (k2 = k1)) as [H21|H21];
    intros H1 H2; subst; try congruence.
  - f_equal. by apply (anti_symm String.le).
  - exfalso. apply H12. by apply (anti_symm String.le).
Qed.

Global Instance param_le_total : Total param_le.
Proof.
  intros [k1 x1] [k2 x2]. unfold param_le. simpl.
  destruct (decide (k1 = k2)) as [H12|H12], (decide (k2 = k1)) as [H21|H21];
    subst; try congruence; apply (total String.le).
Qed.

(** *** The pairs of a parameter set *)

Lemma pairs_of_cons (v : Url.Values) (k : string) (ks : list string) :
  pairs_of v (k :: ks) = ((fun x => (k, x)) <$> Url.index v k) ++ pairs_of v ks.
Proof. unfold pairs_of. by rewrite bind_cons. Qed.

Lemma elem_of_pairs_of (v : Url.Values) (ks : list string) (p : string * string) :
  p ∈ pairs_of v ks <-> p.1 ∈ ks /\ p.2 ∈ Url.index v p.1.
Proof.
  unfold pairs_of. rewrite list_elem_of_bind. split.
  - intros (k & (x & -> & Hx)%list_elem_of_fmap & Hk). done.
  - intros [Hk Hx]. exists p.1. split; [|done].
    apply list_elem_of_fmap. exists p.2. split; [by destruct p|done].
Qed.

Lemma sorted_keys_Sorted (v : Url.Values) : Sorted String.le (Url.sorted_keys v).
Proof. apply Sorted_merge_sort. apply _. Qed.

Lemma sorted_keys_Permutation (v : Url.Values) :
  Url.sorted_keys v ≡ₚ (map_to_list v).*1.
Proof. apply merge_sort_Permutation. Qed.

Lemma sorted_keys_NoDup (v : Url.Values) : NoDup (Url.sorted_keys v).
Proof. rewrite sorted_keys_Permutation. apply NoDup_fst_map_to_list. Qed.

Lemma elem_of_sorted_keys (v : Url.Values) (k : string) :
  k ∈ Url.sorted_keys v <-> is_Some (v !! k).
Proof.
  rewrite sorted_keys_Permutation, list_elem_of_fmap. split.
  - intros ([k' x] & -> & Hx%elem_of_map_to_list). by exists x.
  - intros [x Hx]. exists (k, x). split; [done|]. by apply elem_of_map_to_list.
Qed.

Lemma index_missing (v : Url.Values) (k : string) :
  k ∉ Url.sorted_keys v -> Url.index v k = [].
Proof.
  rewrite elem_of_sorted_keys. unfold Url.index.
  destruct (v !! k); [|done]. intros []. by eexists.
Qed.

Lemma pairs_of_Permutation (v : Url.Values) :
  pairs_of v (Url.sorted_keys v) ≡ₚ parameters v.
Proof. unfold parameters, pairs_of. by rewrite sorted_keys_Permutation. Qed.

Lemma pairs_of_sorted_by_key (v : Url.Values) (ks : list string) :
  StronglySorted String.le ks -> StronglySorted key_le (pairs_of v ks).
Proof.
  induction 1 as [|k ks Hks IH Hall]; [constructor|].
  rewrite pairs_of_cons. apply StronglySorted_app. split; [|split; [|done]].
  - intros p q (x & -> & _)%list_elem_of_fmap [Hq _]%elem_of_pairs_of.
    unfold key_le. simpl. rewrite Forall_forall in Hall. by apply Hall.
  - apply (StronglySorted_fmap _ (fun _ _ => True)); [by intros; unfold key_le|].
    induction (Url.index v k) as [|x l IHl]; [constructor|].
    constructor; [done|by apply Forall_true].
Qed.

Lemma filter_same_key (k0 k : string) (vs : list string) :
  filter (fun p : string * string => p.1 = k) ((fun x => (k0, x)) <$> vs)
  = if decide (k0 = k) then (fun x => (k0, x)) <$> vs else [].
Proof.
  induction vs as [|x vs IH]; [by case_decide|].
  rewrite fmap_cons, filter_cons, IH. simpl. by repeat case_decide.
Qed.

Lemma pairs_of_filter (v : Url.Values) (ks : list string) (k : string) :
  NoDup ks ->
  filter (fun p : string * string => p.1 = k) (pairs_of v ks)
  = if decide (k ∈ ks) then (fun x => (k, x)) <$> Url.index v k else [].
Proof.
  induction 1 as [|k0 ks Hk0 Hnd IH]; [done|].
  rewrite pairs_of_cons, filter_app, filter_same_key, IH.
  destruct (decide (k0 = k)) as [->|Hne].
  - rewrite decide_False by done. rewrite decide_True by left. by rewrite app_nil_r.
  - destruct (decide (k ∈ ks)).
    + by rewrite decide_True by (by right).
    + rewrite decide_False; [done|]. by intros [?|?]%elem_of_cons.
Qed.

Lemma pairs_of_sorted_by_value (v : Url.Values) (ks : list string) :
  StronglySorted String.le ks -> NoDup ks ->
  (forall k, Sorted String.le (Url.index v k)) ->
  StronglySorted param_le (pairs_of v ks).
Proof.
  intros Hks Hnd Hvals.
  induction Hks as [|k ks Hks IH Hall]; [constructor|].
  apply NoDup_cons in Hnd as [Hk Hnd].
  rewrite pairs_of_cons. apply StronglySorted_app. split; [|split; [|by apply IH]].
  - intros p q (x & -> & _)%list_elem_of_fmap [Hq _]%elem_of_pairs_of.
    unfold param_le. simpl. rewrite decide_False by (by intros ->).
    rewrite Forall_forall in Hall. by apply Hall.
  - apply (StronglySorted_fmap _ String.le).
    + intros x y Hxy. unfold param_le. simpl. by rewrite decide_True.
    + apply Sorted_StronglySorted; [apply _|apply Hvals].
Qed.

(** When the values of every key are stored in ascending order, and so
    when no key has more than one value, the order of [Encode] is the order
    by key and value. *)
Lemma Encode_canonical (v : Url.Values) :
  (forall k, Sorted String.le (Url.index v k)) ->
  Url.Encode v = canonicalQueryString v.
Proof.
  intros Hvals. rewrite Encode_concat. unfold canonicalQueryString.
  do 2 f_equal. symmetry. apply (StronglySorted_unique param_le).
  - apply StronglySorted_merge_sort; apply _.
  - apply pairs_of_sorted_by_value; [|apply sorted_keys_NoDup|done].
    apply Sorted_StronglySorted; [apply _|apply sorted_keys_Sorted].
  - rewrite merge_sort_Permutation. symmetry. apply pairs_of_Permutation.
Qed.

Lemma Sign_lookup_ne (ts key : string) (c : FlickrClient) :
  key <> "oauth_signature" -> Args (Sign ts c) !! key = Args c !! key.
Proof.
  intros Hne. rewrite Sign_unsigned. cbv zeta. unfold unsigned, Url.Del.
  cbn [Args with_Args].
  rewrite lookup_insert_ne by done. by rewrite lookup_delete_ne.
Qed.

Lemma getSignature_concat (c : FlickrClient) (ts : string) :
  getSignature c ts
  = hmac_sha1_base64 (signing_key (ApiSecret c) ts)
      (base_string (HTTPVerb c) (EndpointUrl c)
         (String.concat "&" (form_pair <$> pairs_of (Args c) (Url.sorted_keys (Args c))))).
Proof.
  unfold getSignature, getSigningBaseString. by rewrite Encode_concat.
Qed.

(** C1 (as amended): [Sign] stores under [oauth_signature] the standard
    base64 encoding of the HMAC-SHA1 digest of the base string
    VERB&urlEncode(endpointURL)&urlEncode(query), computed with the key
    urlEncode(appSecret)&urlEncode(tokenSecret).  The query is the form
    encoding of all current parameters, the signature parameter left out,
    sorted by key and joined with [&]; the values of one key stay in the
    order they are stored.  When the values of each key are stored in
    ascending order (so whenever each key has a single value) this is the
    order by key with ties broken by value. *)
Theorem Sign_signature (c : FlickrClient) (tokenSecret : string) :
  let args := delete "oauth_signature" (Args c) in
  let params := pairs_of args (Url.sorted_keys args) in
  Args (Sign tokenSecret c) !! "oauth_signature"
  = Some [hmac_sha1_base64 (signing_key (ApiSecret c) tokenSecret)
            (base_string (HTTPVerb c) (EndpointUrl c)
               (String.concat "&" (form_pair <$> params)))]
  /\ args !! "oauth_signature" = None
  /\ (forall p, p ∈ params -> p.1 <> "oauth_signature")
  /\ (forall k, k <> "oauth_signature" -> Args (Sign tokenSecret c) !! k = Args c !! k)
  /\ params ≡ₚ parameters args
  /\ StronglySorted key_le params
  /\ (forall k, filter (fun p : string * string => p.1 = k) params
                = (fun x => (k, x)) <$> Url.index args k)
  /\ ((forall k, Sorted String.le (Url.index args k)) ->
      Args (Sign tokenSecret c) !! "oauth_signature"
      = Some [oauth_signature_by_value c tokenSecret]).
Proof.
  cbv zeta.
  assert (Args (Sign tokenSecret c) !! "oauth_signature"
          = Some [getSignature (unsigned "oauth_signature" c) tokenSecret]) as Hsig.
  { rewrite Sign_unsigned. cbv zeta. cbn [Args with_Args]. apply lookup_insert_eq. }
  split; [by rewrite Hsig, getSignature_concat|].
  split; [apply lookup_delete_eq|].
  split.
  { intros p [Hp _]%elem_of_pairs_of Heq. rewrite Heq in Hp.
    apply elem_of_sorted_keys in Hp as [x Hx]. by rewrite lookup_delete_eq in Hx. }
  split; [intros k Hk; by apply Sign_lookup_ne|].
  split; [apply pairs_of_Permutation|].
  split.
  { apply pairs_of_sorted_by_key, Sorted_StronglySorted; [apply _|].
    apply sorted_keys_Sorted. }
  split.
  { intros k. rewrite pairs_of_filter by apply sorted_keys_NoDup.
    case_decide as Hk; [done|]. by rewrite (index_missing _ _ Hk). }
  intros Hvals. rewrite Hsig. unfold getSignature, getSigningBaseString.
  unfold unsigned, Url.Del.
  cbn [Args ApiSecret HTTPVerb EndpointUrl with_Args].
  by rewrite (Encode_canonical _ Hvals).
Qed.

(** With one value per key the stored signature is the one of the
    specification. *)
Example Sign_single_values :
  let c := with_Args (Url.Set_ "b" "2" (Url.Set_ "a" "1" (Url.Set_ "oauth_signature" "old" ∅)))
             (with_EndpointUrl REQUEST_TOKEN_URL (NewFlickrClient "key" "secret")) in
  Args (Sign "ts" c) !! "oauth_signature" = Some [oauth_signature_by_value c "ts"]
  /\ Url.Encode (delete "oauth_signature" (Args c)) = "a=1&b=2".
Proof. split; vm_compute; reflexivity. Qed.

(** ** The API signature *)

Lemma Get_index (args : Url.Values) (k x : string) (xs : list string) :
  Url.index args k = x :: xs -> Url.Get args k = x.
Proof. unfold Url.Get. by intros ->. Qed.

(** The loop of [getApiSignature] appends, key after key, the key and its
    first value; it panics at a key without values. *)
Lemma api_base_key_values (args : Url.Values) (keys : list string) (buf : string) :
  (forall k, k ∈ keys -> Url.index args k <> []) ->
  api_base args keys buf = Some (buf +:+ key_values args keys).
Proof.
  revert buf. induction keys as [|k keys IH]; intros buf Hkeys.
  - simpl. by rewrite string_app_nil_r.
  - cbn [api_base key_values foldr].
    destruct (Url.index args k) as [|arg rest] eqn:Hk.
    { exfalso. apply (Hkeys k); [left|done]. }
    rewrite IH by (intros k' Hk'; apply Hkeys; by right).
    rewrite (Get_index _ _ _ _ Hk). fold (key_values args keys).
    by rewrite !string_app_assoc.
Qed.

Lemma values_present_index (args : Url.Values) (k : string) :
  values_present args -> k ∈ Url.sorted_keys args -> Url.index args k <> [].
Proof.
  intros Hargs [vs Hvs]%elem_of_sorted_keys. unfold Url.index. rewrite Hvs.
  by apply (Hargs k).
Qed.

Lemma getApiSignature_key_values (c : FlickrClient) (ts : string) :
  values_present (Args c) ->
  getApiSignature c ts
  = Some (md5_hex (ts +:+ key_values (Args c) (Url.sorted_keys (Args c)))).
Proof.
  intros Hargs. unfold getApiSignature.
  rewrite api_base_key_values by (intros k; by apply values_present_index).
  reflexivity.
Qed.

(** Parameter sets built by [Set]: the order of the calls does not matter
    when no key is set twice. *)
Lemma set_params_list_to_map (l : list (string * string)) :
  set_params l = list_to_map ((fun p => (p.1, [p.2])) <$> rev l).
Proof.
  induction l as [|p l IH] using rev_ind; [done|].
  unfold set_params. rewrite fold_left_app. cbn [fold_left].
  fold (set_params l). rewrite IH, rev_app_distr. reflexivity.
Qed.

Lemma set_params_Permutation (l1 l2 : list (string * string)) :
  NoDup l1.*1 -> l1 ≡ₚ l2 -> set_params l1 = set_params l2.
Proof.
  intros Hnd Hperm. rewrite !set_params_list_to_map.
  apply list_to_map_proper.
  - rewrite <- list_fmap_compose, <- Permutation_rev.
    by rewrite (list_fmap_ext _ fst l1) by done.
  - by rewrite <- !Permutation_rev, Hperm.
Qed.

Lemma unsigned_values_present (c : FlickrClient) :
  values_present (delete "api_sig" (Args c)) ->
  values_present (Args (unsigned "api_sig" c)).
Proof. done. Qed.

(** C2 (as amended): when every key other than [api_sig] has at least one
    value, [ApiSign] stores under [api_sig] the lowercase hexadecimal MD5
    digest of the token secret followed, for each key in ascending order,
    by the key and the first value stored under it, with no separators.
    Two parameter sets built by setting the same pairs, no key twice, in
    different orders are the same set and yield the same digest. *)
Theorem ApiSign_signature (c : FlickrClient) (tokenSecret : string) :
  let args := delete "api_sig" (Args c) in
  values_present args ->
  (exists c',
     ApiSign tokenSecret c = Some c'
     /\ Args c' !! "api_sig"
        = Some [md5_hex (tokenSecret +:+ key_values args (Url.sorted_keys args))]
     /\ (forall k, k <> "api_sig" -> Args c' !! k = Args c !! k))
  /\ Sorted String.le (Url.sorted_keys args)
  /\ NoDup (Url.sorted_keys args)
  /\ (forall k, k ∈ Url.sorted_keys args <-> is_Some (args !! k))
  /\ (forall l1 l2 : list (string * string),
        NoDup l1.*1 -> l1 ≡ₚ l2 ->
        getApiSignature (with_Args (set_params l1) c) tokenSecret
        = getApiSignature (with_Args (set_params l2) c) tokenSecret).
Proof.
  cbv zeta. intros Hargs.
  split; [|split; [apply sorted_keys_Sorted|split; [apply sorted_keys_NoDup|split]]].
  - pose proof (getApiSignature_key_values (unsigned "api_sig" c) tokenSecret
                  (unsigned_values_present c Hargs)) as Hsig.
    rewrite (ApiSign_Some _ _ _ Hsig). eexists. split; [reflexivity|].
    unfold unsigned, Url.Del. cbn [Args with_Args].
    split; [apply lookup_insert_eq|].
    intros k Hk. rewrite lookup_insert_ne by done. by rewrite lookup_delete_ne.
  - apply elem_of_sorted_keys.
  - intros l1 l2 Hnd Hperm. by rewrite (set_params_Permutation l1 l2).
Qed.

(** C2 (witness): a client with the parameters [a] and [b] and an old
    value of [api_sig]. *)
Lemma ApiSign_signature_witness :
  let c := with_Args (Url.Set_ "a" "1" (Url.Set_ "b" "2" (Url.Set_ "api_sig" "old" ∅)))
             (NewFlickrClient "key" "secret") in
  let args := delete "api_sig" (Args c) in
  values_present args
  /\ (exists c',
        ApiSign "ts" c = Some c'
        /\ Args c' !! "api_sig"
           = Some [md5_hex ("ts" +:+ key_values args (Url.sorted_keys args))]
        /\ (forall k, k <> "api_sig" -> Args c' !! k = Args c !! k))
  /\ Sorted String.le (Url.sorted_keys args)
  /\ NoDup (Url.sorted_keys args)
  /\ (forall k, k ∈ Url.sorted_keys args <-> is_Some (args !! k))
  /\ (forall l1 l2 : list (string * string),
        NoDup l1.*1 -> l1 ≡ₚ l2 ->
        getApiSignature (with_Args (set_params l1) c) "ts"
        = getApiSignature (with_Args (set_params l2) c) "ts").
Proof.
  cbv zeta.
  assert (values_present
            (delete "api_sig"
               (Args (with_Args
                        (Url.Set_ "a" "1" (Url.Set_ "b" "2" (Url.Set_ "api_sig" "old" ∅)))
                        (NewFlickrClient "key" "secret"))))) as Hargs.
  { intros k vs. cbn [Args with_Args]. unfold Url.Set_.
    rewrite delete_insert_ne, delete_insert_ne, delete_insert_eq by done.
    rewrite delete_empty.
    intros [[_ <-]|[_ [[_ <-]|[_ ?]]%lookup_insert_Some]]%lookup_insert_Some; done. }
  exact (conj Hargs (ApiSign_signature _ "ts" Hargs)).
Defined.

(** The sets [{b:2, a:1}] and [{a:1, b:2}] of the specification. *)
Example ApiSign_insertion_order :
  let c := NewFlickrClient "key" "secret" in
  set_params [("b", "2"); ("a", "1")] = set_params [("a", "1"); ("b", "2")]
  /\ Args <$> ApiSign "ts" (with_Args (set_params [("b", "2"); ("a", "1")]) c)
     = Some (<["api_sig" := ["83455639dc8676459658f5b4cc113974"]]>
               (set_params [("a", "1"); ("b", "2")]))
  /\ key_values (set_params [("b", "2"); ("a", "1")]) ["a"; "b"] = "a1b2".
Proof. repeat split; vm_compute; reflexivity. Qed.

(** A key whose list of values is empty makes [getApiSignature] panic,
    where [Sign] goes through: [Encode] writes nothing for such a key. *)
Example ApiSign_panics_without_value :
  let c := with_Args (<["a" := []]> (Url.Set_ "b" "2" ∅)) (NewFlickrClient "key" "secret") in
  ApiSign "ts" c = None
  /\ Url.Encode (Args c) = "b=2".
Proof.
  split; vm_compute; reflexivity.
Qed.

(** C2 (counterexample): the sets built by adding the value 1 and then 2,
    or 2 and then 1, under the key [a] hold the same pairs; their digests
    differ, and neither covers both pairs. *)
Lemma ApiSign_first_value_only :
  Args client_a_1_2 = <["a" := ["1"; "2"]]> ∅
  /\ Args client_a_2_1 = <["a" := ["2"; "1"]]> ∅
  /\ parameters (Args client_a_1_2) ≡ₚ parameters (Args client_a_2_1)
  /\ getApiSignature client_a_1_2 "ts" = Some "459d1969b5ad0d36076322a36e4598ce"
  /\ getApiSignature client_a_2_1 "ts" = Some "d3de8135dface10a9ecfaf8c0b618445"
  /\ (ApiSign "ts" client_a_1_2 ≫= fun c' => Args c' !! "api_sig")
     = Some ["459d1969b5ad0d36076322a36e4598ce"]
  /\ api_signature_all_pairs (Args client_a_1_2) "ts" = "f71d17acdec50b623f91167e8318d3bb"
  /\ md5_hex "tsa1" = "459d1969b5ad0d36076322a36e4598ce"
  /\ md5_hex "tsa1a2" = "f71d17acdec50b623f91167e8318d3bb"
  /\ getApiSignature client_a_1_2 "ts" <> getApiSignature client_a_2_1 "ts"
  /\ (ApiSign "ts" client_a_1_2 ≫= fun c' => Args c' !! "api_sig")
     <> Some [api_signature_all_pairs (Args client_a_1_2) "ts"].
Proof.
  assert (getApiSignature client_a_1_2 "ts" = Some "459d1969b5ad0d36076322a36e4598ce")
    as H12 by (vm_compute; reflexivity).
  assert (getApiSignature client_a_2_1 "ts" = Some "d3de8135dface10a9ecfaf8c0b618445")
    as H21 by (vm_compute; reflexivity).
  assert ((ApiSign "ts" client_a_1_2 ≫= fun c' => Args c' !! "api_sig")
          = Some ["459d1969b5ad0d36076322a36e4598ce"])
    as Hsig by (vm_compute; reflexivity).
  assert (api_signature_all_pairs (Args client_a_1_2) "ts"
          = "f71d17acdec50b623f91167e8318d3bb")
    as Hall by (vm_compute; reflexivity).
  split; [vm_compute; reflexivity|]. split; [vm_compute; reflexivity|].
  split.
  { change (parameters (Args client_a_1_2)) with [("a", "1"); ("a", "2")].
    change (parameters (Args client_a_2_1)) with [("a", "2"); ("a", "1")].
    apply perm_swap. }
  split; [exact H12|]. split; [exact H21|]. split; [exact Hsig|].
  split; [exact Hall|].
  split; [vm_compute; reflexivity|]. split; [vm_compute; reflexivity|].
  split.
  - rewrite H12, H21. intros [=].
  - rewrite Hsig, Hall. intros [=].
Qed.

(** ** Signing again *)

(** C3: signing twice in a row is signing once, for [Sign] and for
    [ApiSign] (which returns a client whenever every key has a value, and
    panics both times otherwise).  Whatever is stored under the signature
    key before the call is deleted first, so it has no influence on the new
    signature: the signature is computed on the parameters without that
    key. *)
Theorem signing_twice (c : FlickrClient) (ts : string) :
  Sign ts (Sign ts c) = Sign ts c
  /\ (ApiSign ts c ≫= ApiSign ts) = ApiSign ts c
  /\ (forall old, Sign ts (with_Args (<["oauth_signature" := old]> (Args c)) c) = Sign ts c)
  /\ (forall old, ApiSign ts (with_Args (<["api_sig" := old]> (Args c)) c) = ApiSign ts c)
  /\ Args (Sign ts c) !! "oauth_signature"
     = Some [getSignature (with_Args (delete "oauth_signature" (Args c)) c) ts]
  /\ (forall c', ApiSign ts c = Some c' ->
        exists sig,
          getApiSignature (with_Args (delete "api_sig" (Args c)) c) ts = Some sig
          /\ Args c' !! "api_sig" = Some [sig])
  /\ (values_present (delete "api_sig" (Args c)) -> is_Some (ApiSign ts c)).
Proof.
  split; [|split; [|split; [|split; [|split; [|split]]]]].
  - rewrite (Sign_unsigned ts (Sign ts c)), unsigned_Sign.
    symmetry. apply Sign_unsigned.
  - destruct (getApiSignature (unsigned "api_sig" c) ts) as [sig|] eqn:Hsig.
    + rewrite (ApiSign_Some ts c sig Hsig). cbn [mbind option_bind].
      rewrite (ApiSign_Some ts _ sig); rewrite unsigned_signed; done.
    + by rewrite (ApiSign_None ts c Hsig).
  - intros old. apply Sign_absorbs.
  - intros old. apply ApiSign_absorbs.
  - rewrite Sign_unsigned. simpl. apply lookup_insert_eq.
  - intros c' Hc'.
    change (with_Args (delete "api_sig" (Args c)) c) with (unsigned "api_sig" c).
    destruct (getApiSignature (unsigned "api_sig" c) ts) as [sig|] eqn:Hsig.
    + rewrite (ApiSign_Some ts c sig Hsig) in Hc'. injection Hc' as <-.
      exists sig. split; [done|]. apply lookup_insert_eq.
    + rewrite (ApiSign_None ts c Hsig) in Hc'. discriminate.
  - intros Hargs.
    pose proof (getApiSignature_key_values (unsigned "api_sig" c) ts
                  (unsigned_values_present c Hargs)) as Hsig.
    rewrite (ApiSign_Some _ _ _ Hsig). by eexists.
Qed.

(** ** The handshake *)

Lemma SetDefaultArgs_run (c : FlickrClient) (w : World) :
  (SetDefaultArgs c w).1 = with_Args (default_args (nonce_in w) (timestamp_in w)) c
  /\ requests (SetDefaultArgs c w).2 = requests w
  /\ server (SetDefaultArgs c w).2 = server w.
Proof. repeat split. Qed.

Lemma bind_run {A B : Type} (m : M A) (f : A -> M B) (w : World) :
  (m ≫= f) w = f (m w).1 (m w).2.
Proof. unfold mbind, M_bind. by destruct (m w). Qed.

Lemma http_Get_run (url : string) (w : World) :
  (http_Get url w).1 = reply_in w url
  /\ requests (http_Get url w).2 = requests w ++ [{| req_method := "GET"; req_url := url |}].
Proof. done. Qed.

Lemma GetRequestToken_run (client : FlickrClient) (w : World) :
  let client' := Sign EmptyString (request_token_call client w) in
  (GetRequestToken client w).1
  = (client',
     match reply_in w (GetUrl client') with
     | GetFails e => (None, Some e)
     | ReadFails e => (None, Some e)
     | Body body => ParseRequestToken body
     end)
  /\ requests (GetRequestToken client w).2
     = requests w ++ [{| req_method := "GET"; req_url := GetUrl client' |}].
Proof.
  cbv zeta. unfold GetRequestToken. rewrite bind_run.
  destruct (SetDefaultArgs_run (with_EndpointUrl REQUEST_TOKEN_URL client) w)
    as (Hc & Hreq & Hsrv).
  rewrite Hc. clear Hc.
  set (w1 := (SetDefaultArgs (with_EndpointUrl REQUEST_TOKEN_URL client) w).2) in *.
  rewrite bind_run.
  change (with_Args (Url.Set_ "oauth_callback" "oob" _) _)
    with (request_token_call client w).
  destruct (http_Get_run (GetUrl (Sign EmptyString (request_token_call client w))) w1)
    as (Hreply & Hlog).
  unfold mret, M_ret. cbn [fst snd].
  rewrite Hreply, Hlog. unfold reply_in. rewrite Hreq, Hsrv.
  split; reflexivity.
Qed.

Lemma GetAccessToken_run (client : FlickrClient) (reqToken : RequestToken)
    (oauthVerifier : string) (w : World) :
  let client' := Sign (OauthTokenSecret reqToken)
                   (access_token_call client reqToken oauthVerifier w) in
  (GetAccessToken client reqToken oauthVerifier w).1
  = (client',
     match reply_in w (GetUrl client') with
     | GetFails e => (None, Some e)
     | ReadFails e => (None, Some e)
     | Body body => ParseOAuthToken body
     end)
  /\ requests (GetAccessToken client reqToken oauthVerifier w).2
     = requests w ++ [{| req_method := "GET"; req_url := GetUrl client' |}].
Proof.
  cbv zeta. unfold GetAccessToken. rewrite bind_run.
  destruct (SetDefaultArgs_run (with_EndpointUrl ACCESS_TOKEN_URL client) w)
    as (Hc & Hreq & Hsrv).
  rewrite Hc. clear Hc.
  set (w1 := (SetDefaultArgs (with_EndpointUrl ACCESS_TOKEN_URL client) w).2) in *.
  rewrite bind_run.
  change (with_Args (Url.Set_ "oauth_token" (OauthToken reqToken) _) _)
    with (access_token_call client reqToken oauthVerifier w).
  destruct (http_Get_run
              (GetUrl (Sign (OauthTokenSecret reqToken)
                         (access_token_call client reqToken oauthVerifier w))) w1)
    as (Hreply & Hlog).
  unfold mret, M_ret. cbn [fst snd].
  rewrite Hreply, Hlog. unfold reply_in. rewrite Hreq, Hsrv.
  split; reflexivity.
Qed.

Lemma unsigned_fresh (key : string) (c : FlickrClient) :
  Args c !! key = None -> unsigned key c = c.
Proof.
  intros Hkey. unfold unsigned, Url.Del. rewrite delete_id by done.
  apply with_Args_id.
Qed.

Lemma Sign_fresh (ts : string) (c : FlickrClient) :
  Args c !! "oauth_signature" = None ->
  Sign ts c = with_Args (<["oauth_signature" := [getSignature c ts]]> (Args c)) c.
Proof. intros Hkey. rewrite Sign_unsigned. cbv zeta. by rewrite unsigned_fresh. Qed.

Lemma request_token_call_unsigned (client : FlickrClient) (w : World) :
  Args (request_token_call client w) !! "oauth_signature" = None.
Proof. unfold request_token_call. cbn [Args with_Args]. lookup_args. Qed.

Lemma access_token_call_unsigned (client : FlickrClient) (reqToken : RequestToken)
    (oauthVerifier : string) (w : World) :
  Args (access_token_call client reqToken oauthVerifier w) !! "oauth_signature" = None.
Proof. unfold access_token_call. cbn [Args with_Args]. lookup_args. Qed.

(** The two steps as the code runs them, for every client.
    [GetRequestToken] sets the endpoint to the request-token URL,
    seeds the default parameters, sets [oauth_consumer_key] to the API key
    and [oauth_callback] to [oob], signs with the empty token secret and
    sends one GET request, to the URL of the signed client.
    [GetAccessToken] sets the endpoint to the access-token URL, seeds the
    default parameters, sets [oauth_verifier], [oauth_consumer_key] and
    [oauth_token], the token of the request token, signs with the secret
    of the request token and sends one GET request.  Neither assigns the
    field [HTTPVerb], which the base string of the signature reads: it is
    GET for a client as [NewFlickrClient] makes it. *)
Theorem handshake_requests (client : FlickrClient) (reqToken : RequestToken)
    (oauthVerifier : string) (w : World) :
  (let '(client', result, w') := GetRequestToken client w in
   let call := request_token_call client w in
   EndpointUrl client' = REQUEST_TOKEN_URL
   /\ HTTPVerb client' = HTTPVerb client
   /\ Args client' !! "oauth_version" = Some ["1.0"]
   /\ Args client' !! "oauth_signature_method" = Some ["HMAC-SHA1"]
   /\ Args client' !! "oauth_nonce" = Some [nonce_in w]
   /\ Args client' !! "oauth_timestamp" = Some [timestamp_in w]
   /\ Args client' !! "oauth_consumer_key" = Some [ApiKey client]
   /\ Args client' !! "oauth_callback" = Some ["oob"]
   /\ Args client' !! "oauth_signature" = Some [getSignature call EmptyString]
   /\ getSignature call EmptyString
      = hmac_sha1_base64 (Url.QueryEscape (ApiSecret client) +:+ "&")
          (base_string (HTTPVerb client) REQUEST_TOKEN_URL (Url.Encode (Args call)))
   /\ (HTTPVerb client = "GET" ->
       getSigningBaseString call
       = "GET&" +:+ Url.QueryEscape REQUEST_TOKEN_URL +:+ "&"
         +:+ Url.QueryEscape (Url.Encode (Args call)))
   /\ (forall k, k ∉ ["oauth_version"; "oauth_signature_method"; "oauth_nonce";
                      "oauth_timestamp"; "oauth_consumer_key"; "oauth_callback";
                      "oauth_signature"] -> Args client' !! k = None)
   /\ requests w' = requests w ++ [{| req_method := "GET"; req_url := GetUrl client' |}]
   /\ result = match reply_in w (GetUrl client') with
               | GetFails e => (None, Some e)
               | ReadFails e => (None, Some e)
               | Body body => ParseRequestToken body
               end)
  /\ (let '(client', result, w') := GetAccessToken client reqToken oauthVerifier w in
      let call := access_token_call client reqToken oauthVerifier w in
      EndpointUrl client' = ACCESS_TOKEN_URL
      /\ HTTPVerb client' = HTTPVerb client
      /\ Args client' !! "oauth_version" = Some ["1.0"]
      /\ Args client' !! "oauth_signature_method" = Some ["HMAC-SHA1"]
      /\ Args client' !! "oauth_nonce" = Some [nonce_in w]
      /\ Args client' !! "oauth_timestamp" = Some [timestamp_in w]
      /\ Args client' !! "oauth_verifier" = Some [oauthVerifier]
      /\ Args client' !! "oauth_consumer_key" = Some [ApiKey client]
      /\ Args client' !! "oauth_token" = Some [OauthToken reqToken]
      /\ Args client' !! "oauth_signature"
         = Some [getSignature call (OauthTokenSecret reqToken)]
      /\ getSignature call (OauthTokenSecret reqToken)
         = hmac_sha1_base64
             (Url.QueryEscape (ApiSecret client) +:+ "&"
              +:+ Url.QueryEscape (OauthTokenSecret reqToken))
             (base_string (HTTPVerb client) ACCESS_TOKEN_URL (Url.Encode (Args call)))
      /\ (HTTPVerb client = "GET" ->
          getSigningBaseString call
          = "GET&" +:+ Url.QueryEscape ACCESS_TOKEN_URL +:+ "&"
            +:+ Url.QueryEscape (Url.Encode (Args call)))
      /\ (forall k, k ∉ ["oauth_version"; "oauth_signature_method"; "oauth_nonce";
                         "oauth_timestamp"; "oauth_verifier"; "oauth_consumer_key";
                         "oauth_token"; "oauth_signature"] -> Args client' !! k = None)
      /\ requests w' = requests w ++ [{| req_method := "GET"; req_url := GetUrl client' |}]
      /\ result = match reply_in w (GetUrl client') with
                  | GetFails e => (None, Some e)
                  | ReadFails e => (None, Some e)
                  | Body body => ParseOAuthToken body
                  end)
  /\ (forall apiKey apiSecret, HTTPVerb (NewFlickrClient apiKey apiSecret) = "GET").
Proof.
  split; [|split; [|reflexivity]].
  - pose proof (GetRequestToken_run client w) as [Hrun Hlog]. cbv zeta in Hrun, Hlog.
    destruct (GetRequestToken client w) as [[client' result] w'].
    cbn [fst snd] in Hrun, Hlog. injection Hrun as -> ->.
    rewrite (Sign_fresh _ _ (request_token_call_unsigned client w)) in *.
    cbv zeta. cbn [Args with_Args EndpointUrl HTTPVerb].
    split; [reflexivity|]. split; [reflexivity|].
    do 7 (split; [unfold request_token_call; cbn [Args with_Args]; lookup_args|]).
    split; [reflexivity|].
    split.
    { intros Hverb. unfold getSigningBaseString.
      change (HTTPVerb (request_token_call client w)) with (HTTPVerb client).
      rewrite Hverb. reflexivity. }
    split; [|split; [exact Hlog|reflexivity]].
    intros k Hk. unfold request_token_call. cbn [Args with_Args]. unfold default_args.
    rewrite !lookup_insert_ne by (intros <-; apply Hk; set_solver).
    apply lookup_empty.
  - pose proof (GetAccessToken_run client reqToken oauthVerifier w) as [Hrun Hlog].
    cbv zeta in Hrun, Hlog.
    destruct (GetAccessToken client reqToken oauthVerifier w) as [[client' result] w'].
    cbn [fst snd] in Hrun, Hlog. injection Hrun as -> ->.
    rewrite (Sign_fresh _ _ (access_token_call_unsigned client reqToken oauthVerifier w)) in *.
    cbv zeta. cbn [Args with_Args EndpointUrl HTTPVerb].
    split; [reflexivity|]. split; [reflexivity|].
    do 8 (split; [unfold access_token_call; cbn [Args with_Args]; lookup_args|]).
    split; [reflexivity|].
    split.
    { intros Hverb. unfold getSigningBaseString.
      change (HTTPVerb (access_token_call client reqToken oauthVerifier w))
        with (HTTPVerb client).
      rewrite Hverb. reflexivity. }
    split; [|split; [exact Hlog|reflexivity]].
    intros k Hk. unfold access_token_call. cbn [Args with_Args]. unfold default_args.
    rewrite !lookup_insert_ne by (intros <-; apply Hk; set_solver).
    apply lookup_empty.
Qed.

(** The first step in the example world: the request and the token. *)
Example GetRequestToken_example :
  let '(client', result, w') :=
    GetRequestToken (NewFlickrClient "key" "secret") example_world in
  HTTPVerb client' = "GET"
  /\ requests w'
     = [{| req_method := "GET";
           req_url := "https://www.flickr.com/services/oauth/request_token?oauth_callback=oob&oauth_consumer_key=key&oauth_nonce=11111111&oauth_signature=7YQSVyiy30SpYphHytxBFw3yMjA%3D&oauth_signature_method=HMAC-SHA1&oauth_timestamp=1446300000&oauth_version=1.0" |}]
  /\ result = (Some example_request_token, None).
Proof. vm_compute. repeat split. Qed.

(** The third step: the signature is made with the secret [S1] of the
    request token; with the empty secret it would be another one. *)
Example GetAccessToken_example :
  let '(client', result, w') :=
    GetAccessToken (NewFlickrClient "key" "secret") example_request_token "V 1"
      example_world in
  requests w'
  = [{| req_method := "GET";
        req_url := "https://www.flickr.com/services/oauth/access_token?oauth_consumer_key=key&oauth_nonce=11111111&oauth_signature=l0sA%2FzA6b%2FJpaQENoFtDzDYnXXM%3D&oauth_signature_method=HMAC-SHA1&oauth_timestamp=1446300000&oauth_token=T1&oauth_verifier=V+1&oauth_version=1.0" |}]
  /\ Args client' !! "oauth_signature" = Some ["l0sA/zA6b/JpaQENoFtDzDYnXXM="]
  /\ getSignature (access_token_call (NewFlickrClient "key" "secret")
                     example_request_token "V 1" example_world) EmptyString
     = "RFTkvXzAssAoOynpZ6HvBNId8Kk="
  /\ result
     = (Some {| OAuthToken_OAuthToken := "A1"; OAuthToken_OAuthTokenSecret := "AS1";
                OAuthToken_UserNsid := "12@N00"; OAuthToken_Username := "jane";
                OAuthToken_Fullname := "Jane Doe";
                OAuthToken_OAuthProblem := EmptyString |}, None).
Proof. vm_compute. repeat split. Qed.

(** A client whose verb was set to POST by an API call keeps it: the
    request is a GET, the base string of its signature starts with POST. *)
Example GetRequestToken_after_post :
  let client := {| ApiKey := "key"; ApiSecret := "secret";
                   EndpointUrl := API_ENDPOINT; HTTPVerb := "POST"; Args := ∅;
                   FlickrClient_OAuthToken := EmptyString;
                   FlickrClient_OAuthTokenSecret := EmptyString |} in
  let '(client', result, w') := GetRequestToken client example_world in
  HTTPVerb client' = "POST"
  /\ req_method <$> requests w' = ["GET"]
  /\ String.prefix "POST&" (getSigningBaseString (request_token_call client example_world))
     = true.
Proof. vm_compute. repeat split. Qed.

(** C4 (code bug): the steps of the handshake send a GET request and never
    assign [HTTPVerb], which the base string of the signature reads.  On a
    client left at POST, [GetRequestToken] sends a GET request that
    carries the signature of the base string starting with [POST&]; the
    signature of the GET request that is sent, the one a client of
    [NewFlickrClient] stores, is another one.  [GetAccessToken] does the
    same. *)
Theorem handshake_signs_stale_verb :
  let w := example_world in
  let first := GetRequestToken client_after_post w in
  let call1 := request_token_call client_after_post w in
  let third := GetAccessToken client_after_post example_request_token "V 1" w in
  let call3 := access_token_call client_after_post example_request_token "V 1" w in
  HTTPVerb client_after_post = "POST"
  /\ req_method <$> requests first.2 = ["GET"]
  /\ HTTPVerb first.1.1 = "POST"
  /\ getSigningBaseString call1
     = base_string "POST" REQUEST_TOKEN_URL (Url.Encode (Args call1))
  /\ Args first.1.1 !! "oauth_signature" = Some ["3zTgBVYDpNvGPrjkWCnR7YVO9ho="]
  /\ hmac_sha1_base64 (signing_key "secret" EmptyString)
       (base_string "POST" REQUEST_TOKEN_URL (Url.Encode (Args call1)))
     = "3zTgBVYDpNvGPrjkWCnR7YVO9ho="
  /\ hmac_sha1_base64 (signing_key "secret" EmptyString)
       (base_string "GET" REQUEST_TOKEN_URL (Url.Encode (Args call1)))
     = "7YQSVyiy30SpYphHytxBFw3yMjA="
  /\ Args (GetRequestToken (NewFlickrClient "key" "secret") w).1.1 !! "oauth_signature"
     = Some ["7YQSVyiy30SpYphHytxBFw3yMjA="]
  /\ req_method <$> requests third.2 = ["GET"]
  /\ getSigningBaseString call3
     = base_string "POST" ACCESS_TOKEN_URL (Url.Encode (Args call3))
  /\ Args third.1.1 !! "oauth_signature" = Some ["hwx2zIu25F7Q4sArXVNkEA8tSK4="]
  /\ hmac_sha1_base64 (signing_key "secret" "S1")
       (base_string "GET" ACCESS_TOKEN_URL (Url.Encode (Args call3)))
     = "l0sA/zA6b/JpaQENoFtDzDYnXXM=".
Proof. cbv zeta. repeat split; vm_compute; reflexivity. Qed.

(** * Further properties of the client *)

(** ** The parsers of the token responses *)

(** X1: when [url.ParseQuery] reports an error for the trimmed body, both
    parsers return that error and no token, whatever the body holds
    beside. *)
Theorem parsers_reject_malformed (body : string) (e : error) :
  (Url.ParseQuery (Strings.TrimSpace body)).2 = Some e ->
  ParseRequestToken body = (None, Some e)
  /\ ParseOAuthToken body = (None, Some e).
Proof.
  intros Herr. unfold ParseRequestToken, ParseOAuthToken.
  destruct (Url.ParseQuery (Strings.TrimSpace body)) as [val err].
  simpl in Herr. by rewrite Herr.
Qed.

(** X1 (witness): a token, a secret and a field with a broken escape. *)
Lemma parsers_reject_malformed_witness :
  let body := "oauth_token=T1&oauth_token_secret=S1&%zz" in
  (Url.ParseQuery (Strings.TrimSpace body)).2 = Some (EscapeError "%zz")
  /\ ParseRequestToken body = (None, Some (EscapeError "%zz"))
  /\ ParseOAuthToken body = (None, Some (EscapeError "%zz")).
Proof.
  cbv zeta.
  assert ((Url.ParseQuery (Strings.TrimSpace "oauth_token=T1&oauth_token_secret=S1&%zz")).2
          = Some (EscapeError "%zz")) as Herr by (vm_compute; reflexivity).
  exact (conj Herr (parsers_reject_malformed _ _ Herr)).
Defined.

(** X2: for a body that [url.ParseQuery] reads without error and that has
    no non-empty [oauth_problem], [ParseOAuthToken] returns no error and a
    token whose fields are the first values of [oauth_token],
    [oauth_token_secret], [user_nsid], [username] and [fullname]; a field
    whose key is missing is the empty string. *)
Theorem access_token_parsed (body : string) (val : Url.Values) :
  Url.ParseQuery (Strings.TrimSpace body) = (val, None) ->
  Url.Get val "oauth_problem" = EmptyString ->
  exists tok : OAuthToken,
    ParseOAuthToken body = (Some tok, None)
    /\ OAuthToken_OAuthToken tok = Url.Get val "oauth_token"
    /\ OAuthToken_OAuthTokenSecret tok = Url.Get val "oauth_token_secret"
    /\ OAuthToken_UserNsid tok = Url.Get val "user_nsid"
    /\ OAuthToken_Username tok = Url.Get val "username"
    /\ OAuthToken_Fullname tok = Url.Get val "fullname"
    /\ OAuthToken_OAuthProblem tok = EmptyString
    /\ (val !! "oauth_token" = None -> OAuthToken_OAuthToken tok = EmptyString)
    /\ (val !! "oauth_token_secret" = None
        -> OAuthToken_OAuthTokenSecret tok = EmptyString)
    /\ (val !! "user_nsid" = None -> OAuthToken_UserNsid tok = EmptyString)
    /\ (val !! "username" = None -> OAuthToken_Username tok = EmptyString)
    /\ (val !! "fullname" = None -> OAuthToken_Fullname tok = EmptyString).
Proof.
  intros Hparse Hproblem. unfold ParseOAuthToken. rewrite Hparse, Hproblem.
  eexists. split; [reflexivity|]. cbn [OAuthToken_OAuthToken
    OAuthToken_OAuthTokenSecret OAuthToken_UserNsid OAuthToken_Username
    OAuthToken_Fullname OAuthToken_OAuthProblem].
  do 6 (split; [reflexivity|]).
  repeat split; apply Get_missing.
Qed.

(** X2 (witness): a response with an escaped full name and user id, and
    no user name. *)
Lemma access_token_parsed_witness :
  let body := "fullname=Jane%20Doe&oauth_token=A1&oauth_token_secret=AS1&user_nsid=12%40N00" in
  let val := Url.Set_ "user_nsid" "12@N00"
               (Url.Set_ "oauth_token_secret" "AS1"
                  (Url.Set_ "oauth_token" "A1" (Url.Set_ "fullname" "Jane Doe" ∅))) in
  Url.ParseQuery (Strings.TrimSpace body) = (val, None)
  /\ Url.Get val "oauth_problem" = EmptyString
  /\ exists tok : OAuthToken,
       ParseOAuthToken body = (Some tok, None)
       /\ OAuthToken_OAuthToken tok = Url.Get val "oauth_token"
       /\ OAuthToken_OAuthTokenSecret tok = Url.Get val "oauth_token_secret"
       /\ OAuthToken_UserNsid tok = Url.Get val "user_nsid"
       /\ OAuthToken_Username tok = Url.Get val "username"
       /\ OAuthToken_Fullname tok = Url.Get val "fullname"
       /\ OAuthToken_OAuthProblem tok = EmptyString
       /\ (val !! "oauth_token" = None -> OAuthToken_OAuthToken tok = EmptyString)
       /\ (val !! "oauth_token_secret" = None
           -> OAuthToken_OAuthTokenSecret tok = EmptyString)
       /\ (val !! "user_nsid" = None -> OAuthToken_UserNsid tok = EmptyString)
       /\ (val !! "username" = None -> OAuthToken_Username tok = EmptyString)
       /\ (val !! "fullname" = None -> OAuthToken_Fullname tok = EmptyString).
Proof.
  cbv zeta.
  assert (Url.ParseQuery
            (Strings.TrimSpace
               "fullname=Jane%20Doe&oauth_token=A1&oauth_token_secret=AS1&user_nsid=12%40N00")
          = (Url.Set_ "user_nsid" "12@N00"
               (Url.Set_ "oauth_token_secret" "AS1"
                  (Url.Set_ "oauth_token" "A1" (Url.Set_ "fullname" "Jane Doe" ∅))),
             None)) as Hparse
    by (vm_compute; reflexivity).
  assert (Url.Get (Url.Set_ "user_nsid" "12@N00"
                     (Url.Set_ "oauth_token_secret" "AS1"
                        (Url.Set_ "oauth_token" "A1" (Url.Set_ "fullname" "Jane Doe" ∅))))
            "oauth_problem" = EmptyString) as Hproblem
    by (vm_compute; reflexivity).
  exact (conj Hparse (conj Hproblem (access_token_parsed _ _ Hparse Hproblem))).
Defined.

(** ** The nonce and the clock *)

Lemma generateNonce_nonce_of (w : World) :
  (generateNonce w).1 = nonce_of (generator w) (now w (reads w)).
Proof. reflexivity. Qed.

(** X4: the generator seeds the random source with the clock at every
    call, so the nonce is a function of the clock reading alone: the seed
    and the draws of earlier calls play no part, and two calls that read
    the same instant return the same nonce. *)
Theorem generateNonce_by_clock (w1 w2 : World) :
  generator w1 = generator w2 ->
  now w1 (reads w1) = now w2 (reads w2) ->
  (generateNonce w1).1 = (generateNonce w2).1
  /\ (generateNonce w1).1 = nonce_of (generator w1) (now w1 (reads w1))
  /\ seed (generateNonce w1).2 = now w1 (reads w1)
  /\ drawn (generateNonce w1).2 = 8%nat
  /\ reads (generateNonce w1).2 = S (reads w1).
Proof.
  intros Hgen Hnow.
  split; [by rewrite !generateNonce_nonce_of, Hgen, Hnow|].
  repeat split; reflexivity.
Qed.

(** X4 (witness): two worlds with the same clock and different states of
    the random source. *)
Lemma generateNonce_by_clock_witness :
  let w1 := example_world in
  let w2 := {| now := now example_world; reads := reads example_world;
               generator := generator example_world; seed := 42; drawn := 7%nat;
               server := server example_world; requests := [] |} in
  generator w1 = generator w2
  /\ now w1 (reads w1) = now w2 (reads w2)
  /\ (generateNonce w1).1 = (generateNonce w2).1
  /\ (generateNonce w1).1 = nonce_of (generator w1) (now w1 (reads w1))
  /\ seed (generateNonce w1).2 = now w1 (reads w1)
  /\ drawn (generateNonce w1).2 = 8%nat
  /\ reads (generateNonce w1).2 = S (reads w1).
Proof.
  cbv zeta.
  exact (conj eq_refl (conj eq_refl
           (generateNonce_by_clock example_world
              {| now := now example_world; reads := reads example_world;
                 generator := generator example_world; seed := 42; drawn := 7%nat;
                 server := server example_world; requests := [] |}
              eq_refl eq_refl))).
Defined.

(** ** Reading a URL back *)

Lemma Add_lookup (key value : string) (m : Url.Values) (k : string) :
  Url.Add key value m !! k
  = if decide (key = k) then Some (Url.index m k ++ [value]) else m !! k.
Proof.
  unfold Url.Add. case_decide as Hk.
  - subst. apply lookup_insert_eq.
  - by apply lookup_insert_ne.
Qed.

(** The values of a key after the pairs [ps] are added one by one. *)
Lemma fold_Add_lookup (ps : list (string * string)) (m : Url.Values) (k : string) :
  fold_left (fun m p => Url.Add p.1 p.2 m) ps m !! k
  = match (filter (fun p : string * string => p.1 = k) ps).*2 with
    | [] => m !! k
    | xs => Some (Url.index m k ++ xs)
    end.
Proof.
  revert m. induction ps as [|[key value] ps IH]; intros m; [done|].
  cbn [fold_left]. rewrite IH, filter_cons. cbn [fst snd].
  unfold Url.index at 1. rewrite Add_lookup.
  destruct (decide (key = k)) as [->|Hne].
  - rewrite fmap_cons. cbn [snd default from_option id].
    destruct ((filter (fun p : string * string => p.1 = k) ps).*2) as [|x xs];
      [done|].
    by rewrite <- app_assoc.
  - destruct ((filter (fun p : string * string => p.1 = k) ps).*2); done.
Qed.

Lemma pairs_of_values (v : Url.Values) (k : string) :
  (filter (fun p : string * string => p.1 = k) (pairs_of v (Url.sorted_keys v))).*2
  = Url.index v k.
Proof.
  rewrite pairs_of_filter by apply sorted_keys_NoDup.
  case_decide as Hk.
  - rewrite <- list_fmap_compose. apply list_fmap_id.
  - by rewrite (index_missing _ _ Hk).
Qed.

(** [ParseQuery] reads from [Encode v] the keys of [v] that have values,
    each with its values in their order; a key without values is not
    written at all. *)
Lemma ParseQuery_Encode_with_values (v : Url.Values) :
  Url.ParseQuery (Url.Encode v) = (with_values v, None).
Proof.
  rewrite ParseQuery_Encode. f_equal. apply map_eq. intros k.
  rewrite fold_Add_lookup, pairs_of_values, lookup_empty.
  unfold with_values. rewrite map_lookup_filter. unfold Url.index.
  destruct (v !! k) as [[|x xs]|]; cbn; done.
Qed.

Lemma with_values_index (v : Url.Values) (k : string) :
  Url.index (with_values v) k = Url.index v k.
Proof.
  unfold Url.index, with_values. rewrite map_lookup_filter.
  destruct (v !! k) as [[|x xs]|]; cbn; done.
Qed.

Lemma with_values_present (v : Url.Values) :
  values_present v -> with_values v = v.
Proof.
  intros Hv. apply map_eq. intros k. unfold with_values.
  rewrite map_lookup_filter.
  destruct (v !! k) as [vs|] eqn:Hk; [|done]. cbn.
  rewrite option_guard_True; [done|]. cbn. by apply (Hv k).
Qed.

(** X5: the URL [GetUrl] builds is the endpoint, a question mark and a
    query that [url.ParseQuery] reads back without error as the parameters
    of the client: every key gives the values it has, in their order,
    whatever bytes the keys and values contain.  Only a key whose list of
    values is empty is lost; without parameters the URL ends with the
    question mark. *)
Theorem GetUrl_round_trip (c : FlickrClient) :
  exists query : string,
    GetUrl c = EndpointUrl c +:+ "?" +:+ query
    /\ query = Url.Encode (Args c)
    /\ Url.ParseQuery query = (with_values (Args c), None)
    /\ (forall k, Url.index (Url.ParseQuery query).1 k = Url.index (Args c) k)
    /\ (forall k, Url.Get (Url.ParseQuery query).1 k = Url.Get (Args c) k)
    /\ (values_present (Args c) -> Url.ParseQuery query = (Args c, None))
    /\ (Args c = ∅ -> GetUrl c = EndpointUrl c +:+ "?").
Proof.
  exists (Url.Encode (Args c)).
  split; [reflexivity|]. split; [reflexivity|].
  split; [apply ParseQuery_Encode_with_values|].
  rewrite ParseQuery_Encode_with_values. cbn [fst].
  split; [apply with_values_index|].
  split; [intros k; unfold Url.Get; by rewrite with_values_index|].
  split; [intros Hv; by rewrite with_values_present|].
  intros Hempty. unfold GetUrl. by rewrite Hempty.
Qed.

(** ** The base string *)

Lemma QueryEscape_inj (a b : string) :
  Url.QueryEscape a = Url.QueryEscape b -> a = b.
Proof.
  intros Heq.
  pose proof (QueryUnescape_QueryEscape a) as Ha.
  rewrite Heq, QueryUnescape_QueryEscape in Ha. by injection Ha.
Qed.

Lemma base_string_fields (c : FlickrClient) :
  Strings.ContainsByte "&" (HTTPVerb c) = false ->
  Strings.Split "&" (getSigningBaseString c)
  = [HTTPVerb c; Url.QueryEscape (EndpointUrl c);
     Url.QueryEscape (Url.Encode (Args c))].
Proof.
  intros Hverb. unfold getSigningBaseString.
  change (HTTPVerb c +:+ "&" +:+ ?rest)
    with (HTTPVerb c +:+ String "&" rest).
  rewrite Split_app by done.
  change (Url.QueryEscape (EndpointUrl c) +:+ "&" +:+ ?rest)
    with (Url.QueryEscape (EndpointUrl c) +:+ String "&" rest).
  rewrite Split_app by (apply QueryEscape_separators; set_solver).
  rewrite Split_none by (apply QueryEscape_separators; set_solver).
  reflexivity.
Qed.

(** X6: the base string of the signature determines the request.  When
    the verbs hold no [&], two clients with the same base string have the
    same verb, the same endpoint and the same values for every parameter;
    the API key and the secrets are no part of it. *)
Theorem base_string_determines_request (c1 c2 : FlickrClient) :
  Strings.ContainsByte "&" (HTTPVerb c1) = false ->
  Strings.ContainsByte "&" (HTTPVerb c2) = false ->
  getSigningBaseString c1 = getSigningBaseString c2 ->
  HTTPVerb c1 = HTTPVerb c2
  /\ EndpointUrl c1 = EndpointUrl c2
  /\ Url.Encode (Args c1) = Url.Encode (Args c2)
  /\ with_values (Args c1) = with_values (Args c2)
  /\ (forall k, Url.index (Args c1) k = Url.index (Args c2) k)
  /\ (values_present (Args c1) -> values_present (Args c2) -> Args c1 = Args c2).
Proof.
  intros Hv1 Hv2 Hbase.
  pose proof (base_string_fields c1 Hv1) as H1.
  rewrite Hbase, (base_string_fields c2 Hv2) in H1.
  injection H1 as Hverb Hurl%QueryEscape_inj Hquery%QueryEscape_inj.
  assert (with_values (Args c1) = with_values (Args c2)) as Hvals.
  { pose proof (ParseQuery_Encode_with_values (Args c1)) as Hp.
    rewrite <- Hquery, ParseQuery_Encode_with_values in Hp. by injection Hp. }
  split; [done|]. split; [done|]. split; [done|]. split; [done|]. split.
  - intros k. by rewrite <- (with_values_index (Args c1)), Hvals, with_values_index.
  - intros Hp1 Hp2. by rewrite <- (with_values_present _ Hp1), Hvals, with_values_present.
Qed.

(** X6 (witness): two applications, one request. *)
Lemma base_string_determines_request_witness :
  let c1 := client_of_app "key1" in
  let c2 := client_of_app "key2" in
  Strings.ContainsByte "&" (HTTPVerb c1) = false
  /\ Strings.ContainsByte "&" (HTTPVerb c2) = false
  /\ getSigningBaseString c1 = getSigningBaseString c2
  /\ HTTPVerb c1 = HTTPVerb c2
  /\ EndpointUrl c1 = EndpointUrl c2
  /\ Url.Encode (Args c1) = Url.Encode (Args c2)
  /\ with_values (Args c1) = with_values (Args c2)
  /\ (forall k, Url.index (Args c1) k = Url.index (Args c2) k)
  /\ (values_present (Args c1) -> values_present (Args c2) -> Args c1 = Args c2).
Proof.
  cbv zeta.
  exact (conj eq_refl (conj eq_refl (conj eq_refl
           (base_string_determines_request (client_of_app "key1")
              (client_of_app "key2") eq_refl eq_refl eq_refl)))).
Defined.

(** ** The form of the signatures *)

Lemma sha1_round_length (i : nat) (st : list Z) (w : Z) :
  length st = 5%nat -> length (SHA1.round i st w) = 5%nat.
Proof.
  intros Hst. do 6 (destruct st as [|? st]; try discriminate).
  unfold SHA1.round. repeat case_match; reflexivity.
Qed.

Lemma sha1_rounds_length (ws : list Z) (i : nat) (st : list Z) :
  length st = 5%nat -> length (SHA1.rounds i st ws) = 5%nat.
Proof.
  revert i st. induction ws as [|w ws IH]; intros i st Hst; [done|].
  simpl. by apply IH, sha1_round_length.
Qed.

Lemma sha1_block_length (h blk : list Z) :
  length h = 5%nat -> length (SHA1.block h blk) = 5%nat.
Proof.
  intros Hh. unfold SHA1.block.
  rewrite length_zip_with_l_eq; [done|].
  by rewrite sha1_rounds_length.
Qed.

Lemma sha1_sum_length (msg : list Z) : length (SHA1.sum msg) = 20%nat.
Proof.
  unfold SHA1.sum.
  assert (forall blocks h, length h = 5%nat ->
            length (fold_left SHA1.block blocks h) = 5%nat) as Hfold.
  { induction blocks as [|b blocks IH]; intros h Hh; [done|].
    simpl. by apply IH, sha1_block_length. }
  specialize (Hfold (Bytes.chunks (length (SHA1.pad msg)) 64 (SHA1.pad msg))
                SHA1.init eq_refl).
  destruct (fold_left SHA1.block _ SHA1.init) as [|a [|b [|c [|d [|e [|]]]]]];
    try discriminate.
  reflexivity.
Qed.

Lemma md5_step_length (x : list Z) (st : list Z) (i : nat) :
  length st = 4%nat -> length (MD5.step x st i) = 4%nat.
Proof.
  intros Hst. do 5 (destruct st as [|? st]; try discriminate).
  unfold MD5.step. repeat case_match; reflexivity.
Qed.

Lemma md5_steps_length (x : list Z) (steps : list nat) (st : list Z) :
  length st = 4%nat -> length (fold_left (MD5.step x) steps st) = 4%nat.
Proof.
  revert st. induction steps as [|i steps IH]; intros st Hst; [done|].
  simpl. by apply IH, md5_step_length.
Qed.

Lemma md5_block_length (h blk : list Z) :
  length h = 4%nat -> length (MD5.block h blk) = 4%nat.
Proof.
  intros Hh. unfold MD5.block.
  rewrite length_zip_with_l_eq; [done|].
  by rewrite md5_steps_length.
Qed.

Lemma md5_sum_length (msg : list Z) : length (MD5.sum msg) = 16%nat.
Proof.
  unfold MD5.sum.
  assert (forall blocks h, length h = 4%nat ->
            length (fold_left MD5.block blocks h) = 4%nat) as Hfold.
  { induction blocks as [|b blocks IH]; intros h Hh; [done|].
    simpl. by apply IH, md5_block_length. }
  specialize (Hfold (Bytes.chunks (length (MD5.pad msg)) 64 (MD5.pad msg))
                MD5.init eq_refl).
  destruct (fold_left MD5.block _ MD5.init) as [|a [|b [|c [|d [|]]]]];
    try discriminate.
  reflexivity.
Qed.

Lemma base64_enc_alphabet (n : Z) : Base64.enc n ∈ chars Base64.alphabet.
Proof.
  unfold Base64.enc.
  destruct (string_get_Some Base64.alphabet (Z.to_nat (n mod 64))) as [c Hc].
  { change (String.length Base64.alphabet) with 64%nat.
    pose proof (Z.mod_pos_bound n 64). lia. }
  rewrite Hc. apply list_elem_of_lookup. exists (Z.to_nat (n mod 64)).
  by apply string_get_chars.
Qed.

Lemma hex_digit_lower (n : Z) : Hex.digit Hex.lower n ∈ chars Hex.lower.
Proof.
  unfold Hex.digit.
  destruct (String.get (Z.to_nat n) Hex.lower) as [c|] eqn:Hc.
  - apply list_elem_of_lookup. exists (Z.to_nat n). by apply string_get_chars.
  - apply (bool_decide_unpack _). vm_compute. exact I.
Qed.

Lemma hex_encode_chars (bs : list Z) :
  String.length (Hex.encode bs) = (2 * length bs)%nat
  /\ Forall (fun ch => ch ∈ chars Hex.lower) (chars (Hex.encode bs)).
Proof.
  induction bs as [|b bs [IHlen IHall]]; [split; [done|constructor]|].
  split.
  - cbn [Hex.encode String.length length]. rewrite IHlen. lia.
  - cbn [Hex.encode].
    change (chars (String ?a (String ?b ?s))) with (a :: b :: chars s).
    apply List.Forall_cons; [apply hex_digit_lower|].
    apply List.Forall_cons; [apply hex_digit_lower|]. exact IHall.
Qed.

(** X7: the OAuth signature is always a string of 28 characters: 27
    characters of the base64 alphabet and a final [=], the encoding of the
    20 bytes of a SHA-1 digest.  This is what [Sign] stores, as the only
    value of [oauth_signature]. *)
Theorem oauth_signature_form (c : FlickrClient) (ts : string) :
  let sig := getSignature c ts in
  String.length sig = 28%nat
  /\ Forall (fun ch => ch ∈ chars Base64.alphabet) (take 27 (chars sig))
  /\ chars sig !! 27%nat = Some "="%char
  /\ Args (Sign ts c) !! "oauth_signature"
     = Some [getSignature (with_Args (delete "oauth_signature" (Args c)) c) ts].
Proof.
  assert (forall key text,
            let sig := hmac_sha1_base64 key text in
            String.length sig = 28%nat
            /\ Forall (fun ch => ch ∈ chars Base64.alphabet) (take 27 (chars sig))
            /\ chars sig !! 27%nat = Some "="%char) as Hform.
  { intros key text. unfold hmac_sha1_base64, HMAC.sha1.
    set (digest := SHA1.sum _).
    pose proof (sha1_sum_length
                  (((fun b => Z.lxor b 0x5c) <$> HMAC.prepare_key (Bytes.of_string key))
                   ++ SHA1.sum (((fun b => Z.lxor b 0x36)
                                   <$> HMAC.prepare_key (Bytes.of_string key))
                                ++ Bytes.of_string text))) as Hlen.
    fold digest in Hlen. clearbody digest.
    do 21 (destruct digest as [|? digest]; try discriminate).
    cbv zeta. cbn [Base64.encode].
    split; [reflexivity|]. split; [|reflexivity].
    unfold chars at 1. cbn [list_ascii_of_string take].
    repeat (apply List.Forall_cons; [apply base64_enc_alphabet|]).
    apply List.Forall_nil. }
  cbv zeta. split; [apply (Hform _ _)|]. split; [apply (Hform _ _)|].
  split; [apply (Hform _ _)|].
  rewrite Sign_unsigned. cbv zeta. cbn [Args with_Args]. apply lookup_insert_eq.
Qed.

(** X8: the API signature, when [getApiSignature] returns one, is always
    a string of 32 lowercase hexadecimal digits, the 16 bytes of an MD5
    digest; this is what [ApiSign] stores as the only value of
    [api_sig]. *)
Theorem api_signature_form (c : FlickrClient) (ts : string) :
  (forall sig, getApiSignature c ts = Some sig ->
     String.length sig = 32%nat
     /\ Forall (fun ch => ch ∈ chars Hex.lower) (chars sig))
  /\ (forall c', ApiSign ts c = Some c' ->
        exists sig, Args c' !! "api_sig" = Some [sig]
                    /\ String.length sig = 32%nat
                    /\ Forall (fun ch => ch ∈ chars Hex.lower) (chars sig)).
Proof.
  assert (forall c0 sig, getApiSignature c0 ts = Some sig ->
            String.length sig = 32%nat
            /\ Forall (fun ch => ch ∈ chars Hex.lower) (chars sig)) as Hform.
  { intros c0 sig. unfold getApiSignature.
    destruct (api_base _ _ _) as [base|]; [|discriminate].
    cbn. intros [= <-].
    destruct (hex_encode_chars (MD5.sum (Bytes.of_string base))) as [Hlen Hall].
    rewrite md5_sum_length in Hlen. done. }
  split; [apply Hform|].
  intros c' Hc'.
  destruct (getApiSignature (unsigned "api_sig" c) ts) as [sig|] eqn:Hsig.
  - rewrite (ApiSign_Some ts c sig Hsig) in Hc'. injection Hc' as <-.
    exists sig. split; [apply lookup_insert_eq|]. by apply (Hform _ _ Hsig).
  - rewrite (ApiSign_None ts c Hsig) in Hc'. discriminate.
Qed.

(** ** The default parameters *)

Lemma nonce_loop_world (n : nat) (w : World) :
  now (nonce_loop n w).2 = now w
  /\ reads (nonce_loop n w).2 = reads w
  /\ server (nonce_loop n w).2 = server w
  /\ requests (nonce_loop n w).2 = requests w.
Proof.
  revert w. induction n as [|n IH]; intros w; [done|].
  cbn [nonce_loop]. rewrite bind_run, bind_run.
  destruct (IH (rand_Intn (Z.of_nat (String.length letters)) w).2) as (H1 & H2 & H3 & H4).
  cbn [mret M_ret snd]. unfold mret, M_ret. cbn [snd].
  rewrite H1, H2, H3, H4. repeat split.
Qed.

Lemma generateNonce_world (w : World) :
  now (generateNonce w).2 = now w
  /\ reads (generateNonce w).2 = S (reads w)
  /\ server (generateNonce w).2 = server w
  /\ requests (generateNonce w).2 = requests w.
Proof.
  unfold generateNonce. rewrite bind_run, bind_run.
  destruct (nonce_loop_world 8 (rand_Seed (UnixNano (time_Now w).1) (time_Now w).2).2)
    as (H1 & H2 & H3 & H4).
  rewrite H1, H2, H3, H4. repeat split.
Qed.

Lemma ret_snd {A : Type} (a : A) (w : World) : (mret (M := M) a w).2 = w.
Proof. reflexivity. Qed.

Lemma SetDefaultArgs_world (c : FlickrClient) (w : World) :
  (SetDefaultArgs c w).2 = (time_Now (generateNonce w).2).2.
Proof.
  unfold SetDefaultArgs. cbv zeta. rewrite bind_run. cbv beta. rewrite bind_run. apply ret_snd.
Qed.

Lemma default_args_keys (nonce timestamp : string) :
  default_args nonce timestamp !! "oauth_version" = Some ["1.0"]
  /\ default_args nonce timestamp !! "oauth_signature_method" = Some ["HMAC-SHA1"]
  /\ default_args nonce timestamp !! "oauth_nonce" = Some [nonce]
  /\ default_args nonce timestamp !! "oauth_timestamp" = Some [timestamp]
  /\ (forall k, k ∉ ["oauth_version"; "oauth_signature_method"; "oauth_nonce";
                     "oauth_timestamp"] -> default_args nonce timestamp !! k = None)
  /\ values_present (default_args nonce timestamp).
Proof.
  do 4 (split; [lookup_args|]).
  split.
  - intros k Hk. unfold default_args.
    rewrite !lookup_insert_ne by (intros <-; apply Hk; set_solver).
    apply lookup_empty.
  - intros k vs. unfold default_args.
    intros Hl.
    do 4 (apply lookup_insert_Some in Hl as [[_ <-]|[_ Hl]]; [done|]).
    by rewrite lookup_empty in Hl.
Qed.

(** X9: [SetDefaultArgs] discards whatever parameters the client had and
    leaves exactly four: the version, the signature method, a nonce of eight
    characters and the timestamp.  Its result does not depend on the
    parameters before the call, the other fields of the client stay as they
    are, no request is sent and the clock is read twice. *)
Theorem SetDefaultArgs_resets (c : FlickrClient) (w : World) :
  let c' := (SetDefaultArgs c w).1 in
  let w' := (SetDefaultArgs c w).2 in
  Args c' !! "oauth_version" = Some ["1.0"]
  /\ Args c' !! "oauth_signature_method" = Some ["HMAC-SHA1"]
  /\ Args c' !! "oauth_nonce" = Some [nonce_in w]
  /\ Args c' !! "oauth_timestamp" = Some [timestamp_in w]
  /\ (forall k, k ∉ ["oauth_version"; "oauth_signature_method"; "oauth_nonce";
                     "oauth_timestamp"] -> Args c' !! k = None)
  /\ (forall args, SetDefaultArgs (with_Args args c) w = (c', w'))
  /\ String.length (nonce_in w) = 8%nat
  /\ with_Args (Args c) c' = c
  /\ values_present (Args c')
  /\ requests w' = requests w
  /\ server w' = server w
  /\ reads w' = S (S (reads w)).
Proof.
  cbv zeta.
  pose proof (SetDefaultArgs_run c w) as (Hc & Hreq & Hsrv).
  pose proof (SetDefaultArgs_world c w) as Hw.
  pose proof (generateNonce_world w) as (_ & Hreads & _ & _).
  rewrite Hc. cbn [Args with_Args].
  destruct (default_args_keys (nonce_in w) (timestamp_in w))
    as (H1 & H2 & H3 & H4 & Hother & Hpresent).
  do 5 (split; [assumption|]).
  split.
  { intros args.
    rewrite (surjective_pairing (SetDefaultArgs (with_Args args c) w)).
    pose proof (SetDefaultArgs_run (with_Args args c) w) as (-> & _ & _).
    rewrite !SetDefaultArgs_world. by destruct c. }
  split; [apply (nonce_loop_chars 8)|].
  split; [by destruct c|].
  split; [assumption|].
  split; [exact Hreq|split; [exact Hsrv|]].
  rewrite Hw. cbn [time_Now snd reads]. by rewrite Hreads.
Qed.

(** X10: the timestamp is the decimal text of the seconds since the
    epoch: for a clock reading that fits 64 bits, [strconv.Atoi] reads
    [oauth_timestamp] back as the reading divided by ten to the ninth,
    rounded down. *)
Theorem timestamp_round_trip (c : FlickrClient) (w : World) :
  - 2 ^ 63 <= now w (S (reads w)) < 2 ^ 63 ->
  Strconv.Atoi (Url.Get (Args (SetDefaultArgs c w).1) "oauth_timestamp")
  = (now w (S (reads w)) / 10 ^ 9, None).
Proof.
  intros Hnow.
  pose proof (SetDefaultArgs_run c w) as (Hc & _ & _). rewrite Hc.
  cbn [Args with_Args]. unfold default_args. rewrite Get_insert.
  unfold timestamp_in, Unix. apply Atoi_FormatInt.
  split.
  - apply Z.div_le_lower_bound; lia.
  - apply Z.div_lt_upper_bound; lia.
Qed.

(** X10 (witness): the clock of the example world. *)
Lemma timestamp_round_trip_witness :
  - 2 ^ 63 <= now example_world (S (reads example_world)) < 2 ^ 63
  /\ Strconv.Atoi
       (Url.Get (Args (SetDefaultArgs (NewFlickrClient "key" "secret") example_world).1)
          "oauth_timestamp")
     = (now example_world (S (reads example_world)) / 10 ^ 9, None).
Proof.
  assert (- 2 ^ 63 <= now example_world (S (reads example_world)) < 2 ^ 63) as Hnow
    by (cbn; lia).
  exact (conj Hnow (timestamp_round_trip _ example_world Hnow)).
Defined.

(** ** Failures and the sequence of the steps *)

(** X11: when the transport fails, or reading the body fails, each step
    returns that error and no token; by then the request was sent and the
    client holds the endpoint and the signed parameters of the step. *)
Theorem handshake_transport_failure (client : FlickrClient) (reqToken : RequestToken)
    (oauthVerifier : string) (w : World) (e : error) :
  (forall url, reply_in w url = GetFails e \/ reply_in w url = ReadFails e) ->
  (GetRequestToken client w).1
  = (Sign EmptyString (request_token_call client w), (None, Some e))
  /\ (GetAccessToken client reqToken oauthVerifier w).1
     = (Sign (OauthTokenSecret reqToken)
          (access_token_call client reqToken oauthVerifier w), (None, Some e))
  /\ length (requests (GetRequestToken client w).2) = S (length (requests w))
  /\ length (requests (GetAccessToken client reqToken oauthVerifier w).2)
     = S (length (requests w)).
Proof.
  intros Hfail.
  pose proof (GetRequestToken_run client w) as [Hrun1 Hlog1].
  pose proof (GetAccessToken_run client reqToken oauthVerifier w) as [Hrun2 Hlog2].
  cbv zeta in *. rewrite Hrun1, Hrun2, Hlog1, Hlog2, !length_app.
  split; [|split; [|split; cbn; lia]].
  - by destruct (Hfail (GetUrl (Sign EmptyString (request_token_call client w))))
      as [-> | ->].
  - by destruct (Hfail (GetUrl (Sign (OauthTokenSecret reqToken)
                                  (access_token_call client reqToken oauthVerifier w))))
      as [-> | ->].
Qed.

(** X11 (witness): a world whose transport reports an error. *)
Lemma handshake_transport_failure_witness :
  let w := failing_world (TransportError "connection refused") in
  let e := TransportError "connection refused" in
  let client := NewFlickrClient "key" "secret" in
  (forall url, reply_in w url = GetFails e \/ reply_in w url = ReadFails e)
  /\ (GetRequestToken client w).1
     = (Sign EmptyString (request_token_call client w), (None, Some e))
  /\ (GetAccessToken client example_request_token "V" w).1
     = (Sign (OauthTokenSecret example_request_token)
          (access_token_call client example_request_token "V" w), (None, Some e))
  /\ length (requests (GetRequestToken client w).2) = S (length (requests w))
  /\ length (requests (GetAccessToken client example_request_token "V" w).2)
     = S (length (requests w)).
Proof.
  cbv zeta.
  assert (forall url,
            reply_in (failing_world (TransportError "connection refused")) url
            = GetFails (TransportError "connection refused")
            \/ reply_in (failing_world (TransportError "connection refused")) url
               = ReadFails (TransportError "connection refused")) as Hfail
    by (intros url; left; reflexivity).
  exact (conj Hfail
           (handshake_transport_failure (NewFlickrClient "key" "secret")
              example_request_token "V" _ _ Hfail)).
Defined.

(** ** White space around a response *)

Lemma of_string_app (s t : string) :
  Bytes.of_string (s +:+ t) = Bytes.of_string s ++ Bytes.of_string t.
Proof.
  unfold Bytes.of_string. induction s as [|a s IH]; [done|].
  rewrite string_app_cons. cbn [list_ascii_of_string]. rewrite !fmap_cons, IH. done.
Qed.

Lemma space_width_ascii (b : Z) (bs : list Z) :
  ascii_space b = true -> Strings.space_width (b :: bs) = 1%nat.
Proof. unfold ascii_space. intros Hb. cbn [Strings.space_width]. by rewrite Hb. Qed.

Lemma space_width_back_ascii (b : Z) (bs : list Z) :
  ascii_space b = true -> Strings.space_width_back (b :: bs) = 1%nat.
Proof.
  intros Hb. cbn [Strings.space_width_back].
  by rewrite (space_width_ascii b [] Hb).
Qed.

Lemma trim_go_spaces (width : list Z -> nat) (ws bs : list Z) :
  (forall b rest, ascii_space b = true -> width (b :: rest) = 1%nat) ->
  Forall (fun b => ascii_space b = true) ws ->
  Strings.trim_go width 0 (ws ++ bs) = Strings.trim_go width 0 bs.
Proof.
  intros Hwidth Hws. induction Hws as [|b ws Hb _ IH]; [done|].
  cbn [app Strings.trim_go]. by rewrite (Hwidth b _ Hb).
Qed.

Lemma space_width_le (bs : list Z) : (Strings.space_width bs <= length bs)%nat.
Proof.
  destruct bs as [|b0 [|b1 [|b2 bs]]]; cbn [Strings.space_width length];
    repeat case_match; lia.
Qed.

Lemma space_width_app (b : Z) (bs ws : list Z) :
  Forall (fun b => ascii_space b = true) ws ->
  Strings.space_width ((b :: bs) ++ ws) = Strings.space_width (b :: bs).
Proof.
  intros Hws. cbn [app Strings.space_width].
  destruct ((9 <=? b) && (b <=? 13) || (b =? 32)) eqn:Hb; [done|].
  destruct bs as [|b1 bs].
  - destruct Hws as [|w ws Hw Hws]; [done|]. cbn [app].
    unfold ascii_space in Hw.
    assert ((w =? 133) || (w =? 160) = false) as -> by lia.
    rewrite andb_false_r.
    destruct ws as [|w2 ws]; [done|].
    assert ((w =? 154) = false) as -> by lia.
    assert ((w =? 128) = false) as -> by lia.
    assert ((w =? 129) = false) as -> by lia.
    by rewrite !andb_false_r.
  - cbn [app]. destruct ((b =? 194) && ((b1 =? 133) || (b1 =? 160))); [done|].
    destruct bs as [|b2 bs]; [|done].
    destruct Hws as [|w ws Hw Hws]; [done|]. cbn [app].
    unfold ascii_space in Hw.
    assert ((w =? 128) = false) as -> by lia.
    assert ((128 <=? w) && (w <=? 138) = false) as -> by lia.
    assert ((w =? 168) = false) as -> by lia.
    assert ((w =? 169) = false) as -> by lia.
    assert ((w =? 175) = false) as -> by lia.
    assert ((w =? 159) = false) as -> by lia.
    by rewrite !andb_false_r.
Qed.

Lemma trim_go_app (skip : nat) (bs ws : list Z) :
  Forall (fun b => ascii_space b = true) ws ->
  (skip <= length bs)%nat ->
  Strings.trim_go Strings.space_width skip (bs ++ ws)
  = match Strings.trim_go Strings.space_width skip bs with
    | [] => []
    | l => l ++ ws
    end.
Proof.
  intros Hws. revert skip. induction bs as [|b bs IH]; intros skip Hskip.
  - cbn [length] in Hskip. replace skip with 0%nat by lia.
    cbn [app]. rewrite <- (app_nil_r ws).
    rewrite (trim_go_spaces _ ws [] space_width_ascii Hws). done.
  - destruct skip as [|k].
    + change ((b :: bs) ++ ws) with (b :: (bs ++ ws)) at 1.
      cbn [Strings.trim_go].
      change (b :: (bs ++ ws)) with ((b :: bs) ++ ws).
      rewrite (space_width_app b bs ws Hws).
      pose proof (space_width_le (b :: bs)) as Hle.
      destruct (Strings.space_width (b :: bs)) as [|k]; [done|].
      apply IH. cbn [length] in Hle. lia.
    + cbn [app Strings.trim_go]. apply IH. cbn [length] in Hskip. lia.
Qed.

Lemma TrimSpace_spaces (before s after : string) :
  ascii_spaces before -> ascii_spaces after ->
  Strings.TrimSpace (before +:+ s +:+ after) = Strings.TrimSpace s.
Proof.
  intros Hbefore Hafter. unfold Strings.TrimSpace. cbv zeta.
  rewrite !of_string_app.
  rewrite (trim_go_spaces _ _ _ space_width_ascii Hbefore).
  rewrite (trim_go_app 0 _ _ Hafter) by lia.
  destruct (Strings.trim_go Strings.space_width 0 (Bytes.of_string s)) as [|b l] eqn:Hl;
    [done|].
  rewrite rev_app_distr.
  rewrite (trim_go_spaces _ _ _ space_width_back_ascii); [done|].
  by apply Forall_rev.
Qed.

(** X12: white space of ASCII before and after the body of a response,
    such as the line feed that ends it, has no influence on what the two
    parsers return. *)
Theorem parsers_ignore_white_space (before body after : string) :
  ascii_spaces before -> ascii_spaces after ->
  ParseRequestToken (before +:+ body +:+ after) = ParseRequestToken body
  /\ ParseOAuthToken (before +:+ body +:+ after) = ParseOAuthToken body.
Proof.
  intros Hbefore Hafter. unfold ParseRequestToken, ParseOAuthToken.
  by rewrite (TrimSpace_spaces before body after Hbefore Hafter).
Qed.

(** X12 (witness): a body between a space and the end of a line. *)
Lemma parsers_ignore_white_space_witness :
  let before := " " in
  let after := String "013" (String "010" EmptyString) in
  let body := "oauth_token=T1&oauth_token_secret=S1" in
  ascii_spaces before /\ ascii_spaces after
  /\ ParseRequestToken (before +:+ body +:+ after) = ParseRequestToken body
  /\ ParseOAuthToken (before +:+ body +:+ after) = ParseOAuthToken body.
Proof.
  cbv zeta.
  assert (ascii_spaces " ") as Hbefore by (repeat constructor).
  assert (ascii_spaces (String "013" (String "010" EmptyString))) as Hafter
    by (repeat constructor).
  exact (conj Hbefore (conj Hafter
           (parsers_ignore_white_space _ "oauth_token=T1&oauth_token_secret=S1" _
              Hbefore Hafter))).
Defined.

(** ** The steps in sequence *)

(** X13: the first and the third step in sequence.  When the first step
    returns a request token, the server sent a body that parses to it; the
    third step, run on the client and in the world the first step leaves,
    sends that token and signs with its secret, its parameters are those of
    a fresh client ([oauth_callback] of the first step is gone), and the
    log holds the two GET requests in order. *)
Theorem handshake_steps_compose (client : FlickrClient) (oauthVerifier : string)
    (w : World) (token : RequestToken) (err : option error) :
  (GetRequestToken client w).1.2 = (Some token, err) ->
  let c1 := (GetRequestToken client w).1.1 in
  let w1 := (GetRequestToken client w).2 in
  let c2 := (GetAccessToken c1 token oauthVerifier w1).1.1 in
  let w2 := (GetAccessToken c1 token oauthVerifier w1).2 in
  (exists body, reply_in w (GetUrl c1) = Body body
                /\ ParseRequestToken body = (Some token, err))
  /\ c2 = Sign (OauthTokenSecret token) (access_token_call client token oauthVerifier w1)
  /\ Args c2 !! "oauth_token" = Some [OauthToken token]
  /\ Args c2 !! "oauth_verifier" = Some [oauthVerifier]
  /\ Args c2 !! "oauth_consumer_key" = Some [ApiKey client]
  /\ Args c2 !! "oauth_callback" = None
  /\ requests w2
     = requests w ++ [{| req_method := "GET"; req_url := GetUrl c1 |};
                      {| req_method := "GET"; req_url := GetUrl c2 |}].
Proof.
  intros Hresult. cbv zeta.
  pose proof (GetRequestToken_run client w) as [Hrun1 Hlog1]. cbv zeta in Hrun1, Hlog1.
  pose proof (GetAccessToken_run (GetRequestToken client w).1.1 token oauthVerifier
                (GetRequestToken client w).2) as [Hrun2 Hlog2].
  cbv zeta in Hrun2, Hlog2.
  rewrite Hlog2, Hlog1, Hrun2. rewrite Hrun1 in Hresult |- *. cbn [fst snd] in *.
  assert (access_token_call (Sign EmptyString (request_token_call client w)) token
            oauthVerifier (GetRequestToken client w).2
          = access_token_call client token oauthVerifier (GetRequestToken client w).2)
    as -> by reflexivity.
  split.
  { destruct (reply_in w (GetUrl (Sign EmptyString (request_token_call client w))))
      as [e|e|body]; [discriminate Hresult..|]. exists body. split; [reflexivity|exact Hresult]. }
  split; [reflexivity|].
  rewrite Sign_fresh by apply access_token_call_unsigned.
  unfold access_token_call. cbn [Args with_Args].
  clear.
  do 4 (split; [lookup_args|]).
  rewrite <- app_assoc. reflexivity.
Qed.

(** X13 (witness): the handshake in the example world. *)
Lemma handshake_steps_compose_witness :
  let client := NewFlickrClient "key" "secret" in
  let token := example_request_token in
  let w := example_world in
  (GetRequestToken client w).1.2 = (Some token, None)
  /\ let c1 := (GetRequestToken client w).1.1 in
     let w1 := (GetRequestToken client w).2 in
     let c2 := (GetAccessToken c1 token "V" w1).1.1 in
     let w2 := (GetAccessToken c1 token "V" w1).2 in
     (exists body, reply_in w (GetUrl c1) = Body body
                   /\ ParseRequestToken body = (Some token, None))
     /\ c2 = Sign (OauthTokenSecret token) (access_token_call client token "V" w1)
     /\ Args c2 !! "oauth_token" = Some [OauthToken token]
     /\ Args c2 !! "oauth_verifier" = Some ["V"]
     /\ Args c2 !! "oauth_consumer_key" = Some [ApiKey client]
     /\ Args c2 !! "oauth_callback" = None
     /\ requests w2
        = requests w ++ [{| req_method := "GET"; req_url := GetUrl c1 |};
                         {| req_method := "GET"; req_url := GetUrl c2 |}].
Proof.
  cbv zeta.
  assert ((GetRequestToken (NewFlickrClient "key" "secret") example_world).1.2
          = (Some example_request_token, None)) as Hresult
    by (vm_compute; reflexivity).
  exact (conj Hresult
           (handshake_steps_compose (NewFlickrClient "key" "secret") "V" example_world
              example_request_token None Hresult)).
Defined.
